(** * StencilSnap: the stencil pipeline of [backend/main.py]

    A shallow embedding of [clamp], [add_halftone_shading] and
    [high_quality_stencil].  Python numbers keep their dynamic int/float
    typing ([Py.num]); floats are IEEE binary64 (Rocq's primitive floats), so
    [1400 / max_side] and [(detail - 2) / 6.0] round exactly as in CPython.
    numpy arrays are matrices with an explicit shape.  The OpenCV filters
    whose numerics are outside the repository are the fields of the
    [Backend] interface. *)

From Stdlib Require Import Strings.String.
From Stdlib Require Import ZArith List Lia Bool.
From Stdlib Require Import Floats.PrimFloat Floats.SpecFloat Floats.FloatOps.
From Stdlib Require Import Numbers.Cyclic.Int63.Uint63.
Import ListNotations.

Set Implicit Arguments.
Set Warnings "-inexact-float".
Open Scope Z_scope.

(** ** Exceptions and the result monad *)

(** The OpenCV entry points the pipeline calls; a [cv2.error] records which
    one raised it. *)
Inductive cv2_fn : Type :=
| fn_resize | fn_cvtColor | fn_bilateralFilter | fn_CLAHE | fn_GaussianBlur
| fn_addWeighted | fn_Canny | fn_adaptiveThreshold | fn_morphologyEx
| fn_bitwise_or.

Inductive exn : Type :=
| cv2_error (fn : cv2_fn)
| ValueError          (* int(nan) *)
| OverflowError       (* int(inf) *)
| IndexError.         (* boolean index of the wrong shape *)

Definition result (A : Type) : Type := (exn + A)%type.

Definition ret {A} (a : A) : result A := inr a.
Definition raise {A} (e : exn) : result A := inl e.
Definition bind {A B} (m : result A) (k : A -> result B) : result B :=
  match m with
  | inl e => inl e
  | inr a => k a
  end.

Notation "x <- m ;; k" := (bind m (fun x => k))
  (at level 61, m at next level, right associativity).

Definition fails {A} (m : result A) : Prop := exists e, m = inl e.

(** ** Python numbers *)

Module Py.

Inductive num : Type :=
| Int (z : Z)
| Float (f : float).

(** [float(z)]; exact below 2^53, which covers every image dimension. *)
Definition float_of_Z (z : Z) : float :=
  match z with
  | Z0 => PrimFloat.zero
  | Zpos _ => PrimFloat.of_uint63 (Uint63.of_Z z)
  | Zneg p => PrimFloat.opp (PrimFloat.of_uint63 (Uint63.of_Z (Zpos p)))
  end.

Definition to_float (n : num) : float :=
  match n with
  | Int z => float_of_Z z
  | Float f => f
  end.

(** Comparisons.  An int meets a float through [float(z)], which agrees
    with Python's exact mixed comparison on the small integers used here. *)
Definition lt (a b : num) : bool :=
  match a, b with
  | Int x, Int y => x <? y
  | _, _ => PrimFloat.ltb (to_float a) (to_float b)
  end.

Definition le (a b : num) : bool :=
  match a, b with
  | Int x, Int y => x <=? y
  | _, _ => PrimFloat.leb (to_float a) (to_float b)
  end.

Definition gt (a b : num) : bool := lt b a.

Definition ne (a b : num) : bool :=
  match a, b with
  | Int x, Int y => negb (x =? y)
  | _, _ => negb (PrimFloat.eqb (to_float a) (to_float b))
  end.

(** The builtins [min(a, b)] and [max(a, b)] keep their first argument
    unless the second is strictly smaller (resp. larger). *)
Definition min (a b : num) : num := if lt b a then b else a.
Definition max (a b : num) : num := if gt b a then b else a.

Definition sub (a b : num) : num :=
  match a, b with
  | Int x, Int y => Int (x - y)
  | _, _ => Float (PrimFloat.sub (to_float a) (to_float b))
  end.

Definition add (a b : num) : num :=
  match a, b with
  | Int x, Int y => Int (x + y)
  | _, _ => Float (PrimFloat.add (to_float a) (to_float b))
  end.

Definition mul (a b : num) : num :=
  match a, b with
  | Int x, Int y => Int (x * y)
  | _, _ => Float (PrimFloat.mul (to_float a) (to_float b))
  end.

(** True division [a / b] always yields a float. *)
Definition truediv (a b : num) : num :=
  Float (PrimFloat.div (to_float a) (to_float b)).

(** Truncation toward zero of a finite float. *)
Definition trunc (f : float) : result Z :=
  match Prim2SF f with
  | S754_zero _ => ret 0
  | S754_finite s m e =>
      let mag := Z.shiftl (Zpos m) e in
      ret (if s then - mag else mag)
  | S754_infinity _ => raise OverflowError
  | S754_nan => raise ValueError
  end.

(** The builtin [int(x)]. *)
Definition int (n : num) : result Z :=
  match n with
  | Int z => ret z
  | Float f => trunc f
  end.

End Py.

Import Py.

(** ** [clamp] *)

Definition clamp (v a b : num) : num := Py.max a (Py.min b v).

(** ** numpy arrays

    A 2-D array is its shape and its samples in row-major order.  A colour
    image is a matrix of BGR triples. *)

Record Mat (A : Type) : Type := mkMat {
  rows : nat;
  cols : nat;
  data : list A
}.

Arguments mkMat {A} rows cols data.

Definition shape {A} (m : Mat A) : nat * nat := (rows m, cols m).

Definition is_empty {A} (m : Mat A) : bool :=
  ((rows m =? 0) || (cols m =? 0))%nat.

Definition same_shape {A B} (a : Mat A) (b : Mat B) : bool :=
  ((rows a =? rows b) && (cols a =? cols b))%nat.

Definition mmap {A B} (f : A -> B) (m : Mat A) : Mat B :=
  mkMat (rows m) (cols m) (map f (data m)).

Definition full {A} (h w : nat) (v : A) : Mat A :=
  mkMat h w (repeat v (h * w)).

(** [np.zeros_like] *)
Definition zeros_like (m : Mat Z) : Mat Z := full (rows m) (cols m) 0.

(** uint8 arithmetic wraps modulo 256. *)
Definition u8 (z : Z) : Z := z mod 256.

(** [(m > t).astype(np.uint8)] *)
Definition gt_mask (t : Z) (m : Mat Z) : Mat Z :=
  mmap (fun v => if t <? v then 1 else 0) m.

(** Number of ink (non-zero) samples of a mask. *)
Definition count_nonzero (m : Mat Z) : nat :=
  length (filter (fun v => negb (v =? 0)) (data m)).

Definition bgr_px : Type := (Z * Z * Z)%type.

(** [cv2.bitwise_or]: element-wise OR of two arrays of one shape. *)
Definition bitwise_or (a b : Mat Z) : result (Mat Z) :=
  if same_shape a b
  then ret (mkMat (rows a) (cols a)
              (map (fun xy => Z.lor (fst xy) (snd xy)) (combine (data a) (data b))))
  else raise (cv2_error fn_bitwise_or).

(** ** The OpenCV interface *)

Inductive interpolation : Type := INTER_NEAREST | INTER_AREA.
Inductive color_code : Type := COLOR_BGR2GRAY | COLOR_RGB2BGR | COLOR_BGR2RGB.
Inductive adaptive_method : Type := ADAPTIVE_THRESH_MEAN_C | ADAPTIVE_THRESH_GAUSSIAN_C.
Inductive thresh_type : Type := THRESH_BINARY | THRESH_BINARY_INV.
Inductive morph_op : Type := MORPH_OPEN | MORPH_CLOSE.
Inductive morph_shape : Type := MORPH_RECT | MORPH_CROSS | MORPH_ELLIPSE.

(** Sample types [cv2.resize] is called on. *)
Inductive depth : Type := CV_8UC3 | CV_8U | CV_32F.

Definition px (F : Type) (d : depth) : Type :=
  match d with
  | CV_8UC3 => bgr_px
  | CV_8U => Z
  | CV_32F => F
  end.

(** The filters of OpenCV and numpy's float32 arithmetic are not part of the
    repository: the pipeline is written against this interface.  Its laws
    are the parts of the OpenCV contract the pipeline relies on: filters keep
    the shape of their input, [resize] returns the requested size, and
    [resize] and [cvtColor] raise on an empty source or an empty target. *)
Class Backend : Type := {
  f32 : Type;
  astype_f32 : Z -> f32;
  f32_div : f32 -> float -> f32;
  f32_power : f32 -> float -> f32;
  f32_rsub : float -> f32 -> f32;
  f32_gt : f32 -> float -> bool;

  resize : forall d, Mat (px f32 d) -> Z * Z -> interpolation -> result (Mat (px f32 d));
  cvtColor : Mat bgr_px -> color_code -> result (Mat Z);
  bilateralFilter : Mat Z -> Z -> num -> num -> result (Mat Z);
  clahe_apply : num -> Z * Z -> Mat Z -> result (Mat Z);
  GaussianBlur : Mat Z -> Z * Z -> num -> result (Mat Z);
  addWeighted : Mat Z -> num -> Mat Z -> num -> num -> result (Mat Z);
  Canny : Mat Z -> Z -> Z -> result (Mat Z);
  adaptiveThreshold :
    Mat Z -> num -> adaptive_method -> thresh_type -> Z -> num -> result (Mat Z);
  morphologyEx : Mat Z -> morph_op -> Mat Z -> Z -> result (Mat Z);

  (** thinning rule of [skimage.morphology.skeletonize]: may the ink pixel
      at this index go in this sub-pass? *)
  removable : bool -> Mat bool -> nat -> bool;

  resize_dsize_empty : forall d m w h i,
    w <= 0 \/ h <= 0 -> fails (resize d m (w, h) i);
  resize_src_empty : forall d m sz i,
    is_empty m = true -> fails (resize d m sz i);
  resize_shape : forall d m w h i r,
    resize d m (w, h) i = inr r -> shape r = (Z.to_nat h, Z.to_nat w);
  cvtColor_src_empty : forall m c,
    is_empty m = true -> fails (cvtColor m c);
  cvtColor_shape : forall m c r, cvtColor m c = inr r -> shape r = shape m;
  bilateralFilter_shape : forall m d sc ss r,
    bilateralFilter m d sc ss = inr r -> shape r = shape m;
  clahe_shape : forall cl g m r, clahe_apply cl g m = inr r -> shape r = shape m;
  GaussianBlur_shape : forall m k s r,
    GaussianBlur m k s = inr r -> shape r = shape m;
  addWeighted_shape : forall a al b be ga r,
    addWeighted a al b be ga = inr r -> shape r = shape a;
  Canny_shape : forall m t1 t2 r, Canny m t1 t2 = inr r -> shape r = shape m;
  adaptiveThreshold_shape : forall m mv am tt bs c r,
    adaptiveThreshold m mv am tt bs c = inr r -> shape r = shape m;
  morphologyEx_shape : forall m op k it r,
    morphologyEx m op k it = inr r -> shape r = shape m
}.

(** ** Structuring elements and dilation *)

Definition zrange (n : nat) : list Z := map Z.of_nat (seq 0 n).

Definition indexed {A} (l : list A) : list (nat * A) :=
  combine (seq 0 (length l)) l.

(** [cvRound]: a double to the nearest integer, ties to even; this is what
    [saturate_cast<int>] does to the half-width of an ellipse row. *)
Definition cvRound (f : float) : Z :=
  match Prim2SF f with
  | S754_finite s m e =>
      let mag :=
        if 0 <=? e then Z.shiftl (Zpos m) e
        else
          let d := Z.shiftl 1 (- e) in
          let q := Zpos m / d in
          let r := Zpos m mod d in
          if 2 * r <? d then q
          else if d <? 2 * r then q + 1
          else if Z.even q then q else q + 1 in
      if s then - mag else mag
  | _ => 0
  end.

(** Columns [j1, j2) set in row [i] of a [kw] x [kh] element. *)
Definition element_row (shp : morph_shape) (kw kh : Z) (i : Z) : Z * Z :=
  let ax := kw / 2 in
  let ay := kh / 2 in
  match shp with
  | MORPH_RECT => (0, kw)
  | MORPH_CROSS => if i =? ay then (0, kw) else (ax, ax + 1)
  | MORPH_ELLIPSE =>
      let r := kh / 2 in
      let c := kw / 2 in
      let inv_r2 :=
        if r =? 0 then PrimFloat.zero
        else PrimFloat.div PrimFloat.one (float_of_Z (r * r)) in
      let dy := i - r in
      if Z.abs dy <=? r then
        let dx := cvRound (PrimFloat.mul (float_of_Z c)
                    (PrimFloat.sqrt
                       (PrimFloat.mul (float_of_Z (r * r - dy * dy)) inv_r2))) in
        (Z.max (c - dx) 0, Z.min (c + dx + 1) kw)
      else (0, 0)
  end.

(** Modelled from the spec: [cv2.getStructuringElement] is OpenCV code, not
    under src/.  The spec's "elliptical structuring element of size
    lineWeight x lineWeight" is taken as OpenCV rasterises it: the filled
    ellipse inscribed in the [kw] x [kh] rectangle, row by row, with
    half-axes [kh/2] and [kw/2]; a 1 x 1 element is the single pixel. *)
Definition getStructuringElement (shp : morph_shape) (ksize : Z * Z) : Mat Z :=
  let kw := fst ksize in
  let kh := snd ksize in
  let shp := if (kw =? 1) && (kh =? 1) then MORPH_RECT else shp in
  mkMat (Z.to_nat kh) (Z.to_nat kw)
    (flat_map
       (fun i =>
          let j12 := element_row shp kw kh i in
          map (fun j => if (fst j12 <=? j) && (j <? snd j12) then 1 else 0)
              (zrange (Z.to_nat kw)))
       (zrange (Z.to_nat kh))).

(** Offsets (row, column) of the set samples of an element from its anchor,
    the centre [(rows/2, cols/2)]. *)
Definition footprint (k : Mat Z) : list (Z * Z) :=
  let kw := Z.of_nat (cols k) in
  let ay := Z.of_nat (rows k) / 2 in
  let ax := kw / 2 in
  map (fun iv => let i := Z.of_nat (fst iv) in (i / kw - ay, i mod kw - ax))
      (filter (fun iv => negb (snd iv =? 0)) (indexed (data k))).

(** A sample of a mask; outside the image a dilation sees the lowest
    value. *)
Definition sample_at (m : Mat Z) (r c : Z) : Z :=
  let h := Z.of_nat (rows m) in
  let w := Z.of_nat (cols m) in
  if (0 <=? r) && (r <? h) && (0 <=? c) && (c <? w)
  then nth (Z.to_nat (r * w + c)) (data m) 0
  else 0.

Definition dilate_px (src : Mat Z) (fp : list (Z * Z)) (r c : Z) : Z :=
  fold_right (fun o acc => Z.max (sample_at src (r + fst o) (c + snd o)) acc) 0 fp.

Definition dilate_once (fp : list (Z * Z)) (src : Mat Z) : Mat Z :=
  let w := Z.of_nat (cols src) in
  mkMat (rows src) (cols src)
    (map (fun i => dilate_px src fp (i / w) (i mod w))
         (zrange (rows src * cols src))).

(** Modelled from the spec: [cv2.dilate] is OpenCV code, not under src/.
    "Dilate ... one iteration": every output sample is the maximum of the
    source over the element's footprint placed at that sample. *)
Definition dilate (src kernel : Mat Z) (iterations : Z) : Mat Z :=
  Nat.iter (Z.to_nat iterations) (dilate_once (footprint kernel)) src.

(** ** Thinning *)

Definition count_true (l : list bool) : nat := length (filter (fun b => b) l).

Definition mat_eqb (a b : Mat bool) : bool :=
  ((rows a =? rows b) && (cols a =? cols b))%nat
  && (if list_eq_dec bool_dec (data a) (data b) then true else false).

Section Thinning.

Context {B : Backend}.

(** One parallel sub-pass: every ink pixel the rule marks, judged on the
    mask as it was when the sub-pass began, becomes background. *)
Definition thin_pass (p : bool) (m : Mat bool) : Mat bool :=
  mkMat (rows m) (cols m)
    (map (fun iv => snd iv && negb (removable p m (fst iv))) (indexed (data m))).

Definition thin_iteration (m : Mat bool) : Mat bool :=
  thin_pass true (thin_pass false m).

Fixpoint thin_loop (fuel : nat) (m : Mat bool) : Mat bool :=
  match fuel with
  | O => m
  | S n =>
      let m' := thin_iteration m in
      if mat_eqb m' m then m else thin_loop n m'
  end.

(** Modelled from the spec: [skimage.morphology.skeletonize] is scikit-image
    code, not under src/.  "Iterative thinning (remove boundary pixels ...,
    repeat to a fixed point)": non-zero samples are ink, and the two
    sub-passes are repeated until one round removes nothing.  A round that
    changes the mask removes an ink pixel, so the ink count bounds the
    number of rounds. *)
Definition skeletonize (img : Mat Z) : Mat bool :=
  let m := mmap (fun v => negb (v =? 0)) img in
  thin_loop (count_true (data m)) m.

End Thinning.

(** ** The pipeline *)

(** StencilSnap purple, RGB. *)
Definition PURPLE : Z * Z * Z := (140, 90, 255).

Definition white : bgr_px := (255, 255, 255).

(** [(PURPLE[2], PURPLE[1], PURPLE[0])]: the ink in the BGR order of the
    output array. *)
Definition ink_bgr : bgr_px :=
  match PURPLE with
  | (r, g, b) => (b, g, r)
  end.

(** Channel swap done by [bgr_to_png_bytes] before encoding. *)
Definition bgr_to_rgb (p : bgr_px) : Z * Z * Z :=
  match p with
  | (b, g, r) => (r, g, b)
  end.

Section Pipeline.

Context {B : Backend}.

(** Line 57: the side of a halftone cell. *)
Definition halftone_block (strength : num) : result Z :=
  Py.int (clamp (Py.sub (Int 10) (Py.mul strength (Int 6))) (Int 4) (Int 10)).

(** [add_halftone_shading(gray, strength)] *)
Definition add_halftone_shading (gray : Mat Z) (strength : num) : result (Mat Z) :=
  if Py.le strength (Int 0) then ret (zeros_like gray)
  else
    let g := mmap (fun v => f32_div (astype_f32 v) 255.0%float) gray in
    let g := mmap (fun v => f32_power v 0.75%float) g in
    let inv := mmap (fun v => f32_rsub 1.0%float v) g in
    let h := Z.of_nat (rows gray) in
    let w := Z.of_nat (cols gray) in
    block <- halftone_block strength ;;
    small <- resize CV_32F inv (w / block, h / block) INTER_AREA ;;
    let thresh := 0.55%float in
    let dots := mmap (fun v => u8 ((if f32_gt v thresh then 1 else 0) * 255)) small in
    dots <- resize CV_8U dots (w, h) INTER_NEAREST ;;
    dots <- GaussianBlur dots (3, 3) (Int 0) ;;
    ret (mmap (fun v => u8 ((if 80 <? v then 1 else 0) * 255)) dots).

(** Lines 80-84: the size normalisation. *)
Definition normalize_size (bgr : Mat bgr_px) : result (Mat bgr_px) :=
  let h := Z.of_nat (rows bgr) in
  let w := Z.of_nat (cols bgr) in
  let max_side := Py.max (Int h) (Int w) in
  let scale :=
    if Py.gt max_side (Int 1400) then Py.truediv (Int 1400) max_side
    else Float 1.0%float in
  if Py.ne scale (Float 1.0%float) then
    w' <- Py.int (Py.mul (Int w) scale) ;;
    h' <- Py.int (Py.mul (Int h) scale) ;;
    resize CV_8UC3 bgr (w', h') INTER_AREA
  else ret bgr.

(** Lines 87-97: grayscale, denoise, contrast, unsharp mask. *)
Definition enhance (bgr : Mat bgr_px) : result (Mat Z) :=
  gray <- cvtColor bgr COLOR_BGR2GRAY ;;
  den <- bilateralFilter gray 7 (Int 50) (Int 50) ;;
  con <- clahe_apply (Float 2.2%float) (8, 8) den ;;
  blur <- GaussianBlur con (0, 0) (Float 1.0%float) ;;
  addWeighted con (Float 1.35%float) blur (Float (-0.35)%float) (Int 0).

(** Lines 101-102: the Canny thresholds. *)
Definition canny_thresholds (detail : num) : result (Z * Z) :=
  t1 <- Py.int (Py.add (Int 40) (Py.mul (Py.sub (Int 8) detail) (Int 6))) ;;
  t2 <- Py.int (Py.add (Int 120) (Py.mul (Py.sub (Int 8) detail) (Int 8))) ;;
  ret (t1, t2).

(** Lines 107-109: the adaptive-threshold window. *)
Definition adaptive_block (detail : num) : result Z :=
  block <- Py.int (clamp (Py.sub (Int 31) (Py.mul detail (Int 2))) (Int 15) (Int 31)) ;;
  ret (if block mod 2 =? 0 then block + 1 else block).

(** Lines 101-121: the ink-candidate mask. *)
Definition line_extractor (sharp : Mat Z) (detail : num) : result (Mat Z) :=
  t <- canny_thresholds detail ;;
  edges <- Canny sharp (fst t) (snd t) ;;
  block <- adaptive_block detail ;;
  th <- adaptiveThreshold sharp (Int 255) ADAPTIVE_THRESH_GAUSSIAN_C THRESH_BINARY
          block (Int 2) ;;
  let th_inv := mmap (fun v => u8 (255 - v)) th in
  bitwise_or edges th_inv.

(** Lines 124-126: open, then close, with a 3 x 3 kernel of ones. *)
Definition morphological_cleaner (combo : Mat Z) : result (Mat Z) :=
  let kernel := full 3 3 1 in
  combo <- morphologyEx combo MORPH_OPEN kernel 1 ;;
  morphologyEx combo MORPH_CLOSE kernel 1.

(** Lines 129-130: the skeleton, as a 0/255 mask. *)
Definition skeletonizer (combo : Mat Z) : Mat Z :=
  let sk := gt_mask 0 combo in
  mmap (fun b : bool => u8 ((if b then 1 else 0) * 255)) (skeletonize sk).

(** Lines 133-135: the line-weight dilation. *)
Definition line_renderer (sk : Mat Z) (line_weight : num) : result (Mat Z) :=
  k <- Py.int (clamp line_weight (Int 1) (Int 8)) ;;
  let dil_kernel := getStructuringElement MORPH_ELLIPSE (k, k) in
  ret (dilate sk dil_kernel 1).

(** Line 138 *)
Definition shade_strength (detail : num) : num :=
  clamp (Py.truediv (Py.sub detail (Int 2)) (Float 6.0%float))
        (Float 0.0%float) (Float 1.0%float).

(** Lines 142-151: union of the masks, painted on a white canvas of the
    size of the normalised image. *)
Definition compositor (bgr : Mat bgr_px) (lines shade : Mat Z) : result (Mat bgr_px) :=
  ink <- bitwise_or lines shade ;;
  let ink_mask := gt_mask 0 ink in
  let out := full (rows bgr) (cols bgr) white in
  if same_shape ink_mask out
  then ret (mkMat (rows out) (cols out)
              (map (fun pm => if snd pm =? 1 then ink_bgr else fst pm)
                   (combine (data out) (data ink_mask))))
  else raise IndexError.

(** [high_quality_stencil(bgr, line_weight, detail)] *)
Definition high_quality_stencil (bgr : Mat bgr_px) (line_weight detail : Z)
  : result (Mat bgr_px) :=
  lw <- Py.int (Int line_weight) ;;
  let line_weight := clamp (Int lw) (Int 1) (Int 8) in
  d <- Py.int (Int detail) ;;
  let detail := clamp (Int d) (Int 1) (Int 8) in
  bgr <- normalize_size bgr ;;
  sharp <- enhance bgr ;;
  combo <- line_extractor sharp detail ;;
  combo <- morphological_cleaner combo ;;
  let sk := skeletonizer combo in
  lines <- line_renderer sk line_weight ;;
  shade <- add_halftone_shading sharp (shade_strength detail) ;;
  compositor bgr lines shade.

End Pipeline.

(** ** Definitions used by the statements *)

(** The clamp of an integer parameter into 1..8. *)
Definition clamp18 (v : Z) : Z := Z.max 1 (Z.min 8 v).

(** Footprint of the [k] x [k] ellipse. *)
Definition ellipse_footprint (k : Z) : list (Z * Z) :=
  footprint (getStructuringElement MORPH_ELLIPSE (k, k)).

Definition inclb (l1 l2 : list (Z * Z)) : bool :=
  forallb (fun o => existsb (fun o' => (fst o =? fst o') && (snd o =? snd o')) l2) l1.

(** [l'] has ink only where [l] has. *)
Definition sub_mask (l' l : list bool) : Prop :=
  Forall2 (fun a b => a = true -> b = true) l' l.

(** ** A plain instance of the interface

    The smallest executable [Backend]: nearest-neighbour [resize], integer
    luma, filters that return their input, a global threshold, no thinning.
    It is not OpenCV; it shows that the laws of the interface can be met and
    lets the pipeline run on concrete images. *)

Module Plain.

Definition nn_resize {A} (m : Mat A) (sz : Z * Z) : result (Mat A) :=
  let w := fst sz in
  let h := snd sz in
  match data m with
  | [] => raise (cv2_error fn_resize)
  | d :: _ =>
      if (w <=? 0) || (h <=? 0) || is_empty m then raise (cv2_error fn_resize)
      else
        let sh := Z.of_nat (rows m) in
        let sw := Z.of_nat (cols m) in
        ret (mkMat (Z.to_nat h) (Z.to_nat w)
               (flat_map
                  (fun r => map (fun c =>
                     nth (Z.to_nat ((r * sh / h) * sw + c * sw / w)) (data m) d)
                     (zrange (Z.to_nat w)))
                  (zrange (Z.to_nat h))))
  end.

Definition luma (p : bgr_px) : Z :=
  match p with
  | (b, g, r) => (114 * b + 587 * g + 299 * r) / 1000
  end.

Definition gray_of (m : Mat bgr_px) (c : color_code) : result (Mat Z) :=
  if is_empty m then raise (cv2_error fn_cvtColor) else ret (mmap luma m).

Definition pow34 (x : float) (e : float) : float :=
  PrimFloat.sqrt (PrimFloat.mul x (PrimFloat.sqrt x)).

#[export] Instance backend : Backend.
Proof.
  refine {|
    f32 := float;
    astype_f32 := float_of_Z;
    f32_div := PrimFloat.div;
    f32_power := pow34;
    f32_rsub := PrimFloat.sub;
    f32_gt := fun x t => PrimFloat.ltb t x;
    resize := fun d m sz _ => nn_resize m sz;
    cvtColor := gray_of;
    bilateralFilter := fun m _ _ _ => ret m;
    clahe_apply := fun _ _ m => ret m;
    GaussianBlur := fun m _ _ => ret m;
    addWeighted := fun a _ _ _ _ => ret a;
    Canny := fun m _ _ => ret (mmap (fun _ => 0) m);
    adaptiveThreshold := fun m _ _ _ _ _ =>
      ret (mmap (fun v => if 127 <? v then 255 else 0) m);
    morphologyEx := fun m _ _ _ => ret m;
    removable := fun _ _ _ => false
  |}.
  - intros d m w h i Hwh. unfold nn_resize, fails. simpl.
    destruct (data m); [eexists; reflexivity|].
    assert (Hb : (w <=? 0) || (h <=? 0) = true).
    { apply orb_true_iff. destruct Hwh; [left|right]; now apply Z.leb_le. }
    rewrite Hb. simpl. eexists; reflexivity.
  - intros d m sz i He. unfold nn_resize, fails.
    destruct (data m); [eexists; reflexivity|].
    rewrite He, orb_true_r. eexists; reflexivity.
  - intros d m w h i r. unfold nn_resize. simpl.
    destruct (data m); [discriminate|].
    destruct ((w <=? 0) || (h <=? 0) || is_empty m); [discriminate|].
    intros E. injection E as <-. reflexivity.
  - intros m c He. unfold gray_of. rewrite He. eexists; reflexivity.
  - intros m c r. unfold gray_of. destruct (is_empty m); [discriminate|].
    intros E. injection E as <-. reflexivity.
  - intros m d sc ss r E. injection E as <-. reflexivity.
  - intros cl g m r E. injection E as <-. reflexivity.
  - intros m k s r E. injection E as <-. reflexivity.
  - intros a al b be ga r E. injection E as <-. reflexivity.
  - intros m t1 t2 r E. injection E as <-. reflexivity.
  - intros m mv am tt bs c r E. injection E as <-. reflexivity.
  - intros m op k it r E. injection E as <-. reflexivity.
Defined.

(** A 12 x 12 white image bearing a dark 6 x 6 square. *)
Definition square12 : Mat bgr_px :=
  mkMat 12 12
    (map (fun i : Z =>
            let r := i / 12 in
            let c := i mod 12 in
            if (3 <=? r) && (r <? 9) && (3 <=? c) && (c <? 9)
            then (20, 20, 20) else (250, 250, 250))
         (zrange 144)).

End Plain.

(** ** An instance with a windowed adaptive threshold

    [Plain.backend] with two filters replaced.  [adaptiveThreshold] follows
    OpenCV's algorithm: the local mean is a separable blur over a
    [blockSize] window with replicated border, Gaussian weights
    [exp(-x^2 / (2 sigma^2))] for [sigma = 0.3*((n-1)*0.5 - 1) + 0.8]
    normalised to sum 1 (or equal weights for the mean method), rounded to a
    sample, and compared with the source sample.  OpenCV accumulates in
    float32; here the arithmetic is binary64.  [Canny] reports the pixels
    whose Sobel magnitude exceeds the high threshold, the seeds without which
    the detector reports no edge; thinning and hysteresis are left out. *)

Module Windowed.

(** [e^x] for [x <= 0]: a Taylor polynomial at [x / 1024], squared ten
    times. *)
Definition exp_neg (x : float) : float :=
  let y := PrimFloat.div x 1024%float in
  let step (k : float) (acc : float) : float :=
    PrimFloat.add 1%float (PrimFloat.mul (PrimFloat.div y k) acc) in
  let p := step 1%float (step 2%float (step 3%float (step 4%float
             (step 5%float (step 6%float (step 7%float (step 8%float 1%float))))))) in
  Nat.iter 10 (fun v => PrimFloat.mul v v) p.

Definition gaussian_kernel (n : Z) : list float :=
  let sigma :=
    PrimFloat.add
      (PrimFloat.mul 0.3%float
         (PrimFloat.sub (PrimFloat.mul (float_of_Z (n - 1)) 0.5%float) 1%float))
      0.8%float in
  let scale2X := PrimFloat.div (-0.5)%float (PrimFloat.mul sigma sigma) in
  let raw :=
    map (fun i =>
           let x := PrimFloat.sub (float_of_Z i)
                      (PrimFloat.mul (float_of_Z (n - 1)) 0.5%float) in
           exp_neg (PrimFloat.mul (PrimFloat.mul scale2X x) x))
        (zrange (Z.to_nat n)) in
  let sum := fold_left PrimFloat.add raw PrimFloat.zero in
  map (fun w => PrimFloat.div w sum) raw.

Definition box_kernel (n : Z) : list float :=
  repeat (PrimFloat.div 1%float (float_of_Z n)) (Z.to_nat n).

(** A sample with replicated border. *)
Definition at_replicate {A} (dflt : A) (m : Mat A) (r c : Z) : A :=
  let h := Z.of_nat (rows m) in
  let w := Z.of_nat (cols m) in
  let r' := Z.max 0 (Z.min (h - 1) r) in
  let c' := Z.max 0 (Z.min (w - 1) c) in
  nth (Z.to_nat (r' * w + c')) (data m) dflt.

(** One pass of a separable filter, along the rows ([horizontal]) or along
    the columns. *)
Definition convolve (horizontal : bool) (k : list float) (m : Mat float) : Mat float :=
  let w := Z.of_nat (cols m) in
  let half := Z.of_nat (length k) / 2 in
  mkMat (rows m) (cols m)
    (map (fun i =>
            let r := i / w in
            let c := i mod w in
            fold_left
              (fun acc jw =>
                 let o := fst jw - half in
                 let v := if horizontal then at_replicate PrimFloat.zero m r (c + o)
                          else at_replicate PrimFloat.zero m (r + o) c in
                 PrimFloat.add acc (PrimFloat.mul (snd jw) v))
              (combine (zrange (length k)) k) PrimFloat.zero)
         (zrange (rows m * cols m))).

Definition local_mean (am : adaptive_method) (block : Z) (src : Mat Z) : Mat Z :=
  let k := match am with
           | ADAPTIVE_THRESH_GAUSSIAN_C => gaussian_kernel block
           | ADAPTIVE_THRESH_MEAN_C => box_kernel block
           end in
  mmap cvRound (convolve false k (convolve true k (mmap float_of_Z src))).

Definition adaptive (src : Mat Z) (maxValue : num) (am : adaptive_method)
    (tt : thresh_type) (blockSize : Z) (C : num) : result (Mat Z) :=
  if negb ((blockSize mod 2 =? 1) && (1 <? blockSize)) || is_empty src
  then raise (cv2_error fn_adaptiveThreshold)
  else
    match Py.int maxValue, Py.int C with
    | inr mv, inr c =>
        ret (mkMat (rows src) (cols src)
               (map (fun sm =>
                       match tt with
                       | THRESH_BINARY => if snd sm - c <? fst sm then mv else 0
                       | THRESH_BINARY_INV => if fst sm <=? snd sm - c then mv else 0
                       end)
                    (combine (data src) (data (local_mean am blockSize src)))))
    | _, _ => raise (cv2_error fn_adaptiveThreshold)
    end.

(** Sobel gradient magnitude, |gx| + |gy|. *)
Definition sobel_magnitude (m : Mat Z) (r c : Z) : Z :=
  let px := at_replicate 0 m in
  let gx := (px (r - 1) (c + 1) + 2 * px r (c + 1) + px (r + 1) (c + 1))
            - (px (r - 1) (c - 1) + 2 * px r (c - 1) + px (r + 1) (c - 1)) in
  let gy := (px (r + 1) (c - 1) + 2 * px (r + 1) c + px (r + 1) (c + 1))
            - (px (r - 1) (c - 1) + 2 * px (r - 1) c + px (r - 1) (c + 1)) in
  Z.abs gx + Z.abs gy.

Definition strong_edges (m : Mat Z) (t1 t2 : Z) : result (Mat Z) :=
  let w := Z.of_nat (cols m) in
  ret (mkMat (rows m) (cols m)
         (map (fun i => if t2 <? sobel_magnitude m (i / w) (i mod w) then 255 else 0)
              (zrange (rows m * cols m)))).

Definition backend : Backend.
Proof.
  refine {|
    f32 := @f32 Plain.backend;
    astype_f32 := @astype_f32 Plain.backend;
    f32_div := @f32_div Plain.backend;
    f32_power := @f32_power Plain.backend;
    f32_rsub := @f32_rsub Plain.backend;
    f32_gt := @f32_gt Plain.backend;
    resize := @resize Plain.backend;
    cvtColor := @cvtColor Plain.backend;
    bilateralFilter := @bilateralFilter Plain.backend;
    clahe_apply := @clahe_apply Plain.backend;
    GaussianBlur := @GaussianBlur Plain.backend;
    addWeighted := @addWeighted Plain.backend;
    Canny := strong_edges;
    adaptiveThreshold := adaptive;
    morphologyEx := @morphologyEx Plain.backend;
    removable := @removable Plain.backend;
    resize_dsize_empty := @resize_dsize_empty Plain.backend;
    resize_src_empty := @resize_src_empty Plain.backend;
    resize_shape := @resize_shape Plain.backend;
    cvtColor_src_empty := @cvtColor_src_empty Plain.backend;
    cvtColor_shape := @cvtColor_shape Plain.backend;
    bilateralFilter_shape := @bilateralFilter_shape Plain.backend;
    clahe_shape := @clahe_shape Plain.backend;
    GaussianBlur_shape := @GaussianBlur_shape Plain.backend;
    addWeighted_shape := @addWeighted_shape Plain.backend;
    morphologyEx_shape := @morphologyEx_shape Plain.backend
  |}.
  - intros m t1 t2 r E. injection E as <-. reflexivity.
  - intros m mv am tt bs c r. unfold adaptive.
    destruct (_ || _)%bool; [discriminate|].
    destruct (Py.int mv); [discriminate|]. destruct (Py.int c); [discriminate|].
    intros E. injection E as <-. reflexivity.
Defined.


End Windowed.

(** ** Checks over a range of image sides

    Decidable forms of two facts about [scale = 1400 / max_side], run over
    every longer side from 1401 to 100000. *)

(** The scale differs from 1.0 and the scaled longer side is 1399 or 1400. *)
Definition long_side_ok (m : Z) : bool :=
  let scale := Py.truediv (Int 1400) (Int m) in
  Py.ne scale (Float 1.0%float)
  && match Py.int (Py.mul (Int m) scale) with
     | inr v => (v =? 1399) || (v =? 1400)
     | inl _ => false
     end.

(** A side of one pixel is scaled to zero. *)
Definition unit_side_vanishes (m : Z) : bool :=
  match Py.int (Py.mul (Int 1) (Py.truediv (Int 1400) (Int m))) with
  | inr v => v =? 0
  | inl _ => false
  end.

(** [n] consecutive integers from [start]. *)
Fixpoint zseq (start : Z) (n : nat) : list Z :=
  match n with
  | O => []
  | S k => start :: zseq (start + 1) k
  end.

Definition sides_checked : list Z := zseq 1401 (Z.to_nat 98600).

(** ** Calls with keyword arguments *)

Inductive pyval : Type :=
| VArr (m : Mat bgr_px)
| VInt (z : Z).

Inductive call_error : Type :=
| too_many_positional
| unexpected_keyword (kw : string)
| multiple_values (kw : string)
| missing_argument (p : string).

Definition lookup (k : string) (env : list (string * pyval)) : option pyval :=
  option_map snd (find (fun kv => String.eqb k (fst kv)) env).

Definition is_param (k : string) (params : list string) : bool :=
  existsb (String.eqb k) params.

(** Keywords are bound left to right: one that names no parameter, or a
    parameter that already has a value, is a [TypeError]. *)
Fixpoint bind_keywords (params : list string) (env : list (string * pyval))
    (kws : list (string * pyval)) : call_error + list (string * pyval) :=
  match kws with
  | [] => inr env
  | (k, v) :: rest =>
      if negb (is_param k params) then inl (unexpected_keyword k)
      else match lookup k env with
           | Some _ => inl (multiple_values k)
           | None => bind_keywords params (env ++ [(k, v)]) rest
           end
  end.

(** Binding of a call [f(positional..., keyword=...)] to the parameters of
    [def f(params...)], none of which has a default. *)
Definition bind_arguments (params : list string) (positional : list pyval)
    (kws : list (string * pyval)) : call_error + list (string * pyval) :=
  if (length params <? length positional)%nat then inl too_many_positional
  else
    match bind_keywords params (combine params positional) kws with
    | inl e => inl e
    | inr env =>
        match find (fun p => match lookup p env with Some _ => false | None => true end)
                   params with
        | Some p => inl (missing_argument p)
        | None => inr env
        end
    end.

(** What a handler can end with: a [TypeError] of a call, a failed decode
    of the upload, or an exception of the pipeline or of an OpenCV call
    around it. *)
Inductive handler_exn : Type :=
| TypeError (e : call_error)
| DecodeError
| PipelineError (e : exn).

Definition handled (A : Type) : Type := (handler_exn + A)%type.

Definition of_core {A} (r : result A) : handled A :=
  match r with
  | inl e => inl (PipelineError e)
  | inr a => inr a
  end.

(** Line 70: [def high_quality_stencil(bgr, line_weight, detail)]. *)
Definition high_quality_stencil_params : list string :=
  ["bgr"; "line_weight"; "detail"]%string.

Definition rgb_to_bgr (p : Z * Z * Z) : bgr_px :=
  match p with
  | (r, g, b) => (b, g, r)
  end.

Section Handlers.

Context {B : Backend}.

(** The upload and the response body. *)
Variable bytes : Type.

(** [np.array(Image.open(io.BytesIO(data)).convert("RGB"))]: the decoded
    RGB array, if PIL can read the upload. *)
Variable Image_open_RGB : bytes -> option (Mat (Z * Z * Z)).

(** [np.array(Image.open(BytesIO(data)).convert("L"))] *)
Variable Image_open_L : bytes -> option (Mat Z).

(** [Image.fromarray(rgb).save(buf, format="PNG")] *)
Variable png_save : Mat (Z * Z * Z) -> bytes.

(** [cv2.dilate(edges, None)] *)
Variable dilate_default : Mat Z -> result (Mat Z).

(** [pil_to_bgr] on an image already in RGB mode:
    [cv2.cvtColor(rgb, cv2.COLOR_RGB2BGR)] swaps the first and third channel
    and, as every [cvtColor], rejects an empty array. *)
Definition pil_to_bgr (pil : Mat (Z * Z * Z)) : result (Mat bgr_px) :=
  if is_empty pil then raise (cv2_error fn_cvtColor)
  else ret (mmap rgb_to_bgr pil).

(** [bgr_to_png_bytes]: [cv2.cvtColor(bgr, cv2.COLOR_BGR2RGB)], which
    rejects an empty array, then the PNG encoder. *)
Definition bgr_to_png_bytes (bgr : Mat bgr_px) : result bytes :=
  if is_empty bgr then raise (cv2_error fn_cvtColor)
  else ret (png_save (mmap bgr_to_rgb bgr)).

(** A call of [high_quality_stencil] with the given positional and keyword
    arguments.  The handler passes an array and two integers; the last
    branch stands for arguments of any other kind. *)
Definition call_high_quality_stencil (positional : list pyval)
    (kws : list (string * pyval)) : handled (Mat bgr_px) :=
  match bind_arguments high_quality_stencil_params positional kws with
  | inl e => inl (TypeError e)
  | inr env =>
      match lookup "bgr" env, lookup "line_weight" env, lookup "detail" env with
      | Some (VArr bgr), Some (VInt lw), Some (VInt d) =>
          of_core (high_quality_stencil bgr lw d)
      | _, _, _ => inl (PipelineError ValueError)
      end
  end.

(** Lines 159-171 of [backend/main.py]: the body of the [/stencil] handler. *)
Definition stencil (file : bytes) (lineWeight detail : Z) : handled bytes :=
  match Image_open_RGB file with
  | None => inl DecodeError
  | Some pil =>
      match pil_to_bgr pil with
      | inl e => inl (PipelineError e)
      | inr bgr =>
          match call_high_quality_stencil [VArr bgr]
                  [("lineWeight"%string, VInt lineWeight);
                   ("detail"%string, VInt detail)] with
          | inl e => inl e
          | inr out => of_core (bgr_to_png_bytes out)
          end
      end
  end.

(** The legacy purple of [app/stencil.py], RGB. *)
Definition legacy_purple : Z * Z * Z := (180, 80, 255).

(** Lines 10-23 of [app/stencil.py]: [make_stencil] from the decoded gray
    image to the RGB array that is encoded. *)
Definition make_stencil_array (img : Mat Z) : result (Mat (Z * Z * Z)) :=
  edges <- Canny img 80 160 ;;
  edges <- dilate_default edges ;;
  let stencil := mmap (fun v => u8 (255 - v)) edges in
  let stencil_rgb := full (rows stencil) (cols stencil) legacy_purple in
  let mask := mmap (fun v => v <? 200) stencil in
  ret (mkMat (rows stencil_rgb) (cols stencil_rgb)
         (map (fun pm => if negb (snd pm) then (255, 255, 255) else fst pm)
              (combine (data stencil_rgb) (data mask)))).

(** [make_stencil(image_bytes)] *)
Definition make_stencil (image_bytes : bytes) : handled bytes :=
  match Image_open_L image_bytes with
  | None => inl DecodeError
  | Some img =>
      match make_stencil_array img with
      | inl e => inl (PipelineError e)
      | inr out => inr (png_save out)
      end
  end.

End Handlers.

(** * Properties *)

(** ** The definitions on concrete inputs *)

Example clamp_below : clamp (Int 0) (Int 1) (Int 8) = Int 1.
Proof. reflexivity. Qed.

Example clamp_above : clamp (Int 99) (Int 1) (Int 8) = Int 8.
Proof. reflexivity. Qed.

Example clamp_float : clamp (Float 0.5%float) (Float 0.0%float) (Float 1.0%float)
                      = Float 0.5%float.
Proof. reflexivity. Qed.

Example int_truncates : Py.int (Float 8.75%float) = ret 8.
Proof. reflexivity. Qed.

Example halftone_block_detail_4 : halftone_block (shade_strength (Int 4)) = ret 8.
Proof. vm_compute. reflexivity. Qed.

Example halftone_block_detail_8 : halftone_block (shade_strength (Int 8)) = ret 4.
Proof. vm_compute. reflexivity. Qed.

Example scaled_side_2800 :
  Py.int (Py.mul (Int 2800) (Py.truediv (Int 1400) (Int 2800))) = ret 1400.
Proof. vm_compute. reflexivity. Qed.

Example scaled_side_2099 :
  Py.int (Py.mul (Int 2099) (Py.truediv (Int 1400) (Int 2099))) = ret 1399.
Proof. vm_compute. reflexivity. Qed.

Example ellipse_2 :
  data (getStructuringElement MORPH_ELLIPSE (2, 2)) = [0; 1; 1; 1].
Proof. vm_compute. reflexivity. Qed.

Example ellipse_5 :
  data (getStructuringElement MORPH_ELLIPSE (5, 5))
  = [0; 0; 1; 0; 0;
     1; 1; 1; 1; 1;
     1; 1; 1; 1; 1;
     1; 1; 1; 1; 1;
     0; 0; 1; 0; 0].
Proof. vm_compute. reflexivity. Qed.

Example dilate_dot_2 :
  data (dilate (mkMat 3 3 [0; 0; 0; 0; 255; 0; 0; 0; 0])
          (getStructuringElement MORPH_ELLIPSE (2, 2)) 1)
  = [0; 0; 0; 0; 255; 255; 0; 255; 0].
Proof. vm_compute. reflexivity. Qed.

Example plain_3x3_detail_4 :
  high_quality_stencil (B := Plain.backend) (full 3 3 (0, 0, 0)) 3 4
  = raise (cv2_error fn_resize).
Proof. vm_compute. reflexivity. Qed.

Example plain_3x3_detail_2 :
  high_quality_stencil (B := Plain.backend) (full 3 3 (0, 0, 0)) 3 2
  = ret (full 3 3 ink_bgr).
Proof. vm_compute. reflexivity. Qed.

(** ** Clamping *)

Lemma clamp_int (v a b : Z) :
  clamp (Int v) (Int a) (Int b) = Int (Z.max a (Z.min b v)).
Proof.
  unfold clamp, Py.max, Py.min, Py.gt, Py.lt.
  destruct (v <? b) eqn:Hvb.
  - apply Z.ltb_lt in Hvb.
    destruct (a <? v) eqn:Hav; [apply Z.ltb_lt in Hav | apply Z.ltb_ge in Hav];
      f_equal; lia.
  - apply Z.ltb_ge in Hvb.
    destruct (a <? b) eqn:Hab; [apply Z.ltb_lt in Hab | apply Z.ltb_ge in Hab];
      f_equal; lia.
Qed.

Lemma clamp18_range v : 1 <= clamp18 v <= 8.
Proof. unfold clamp18. lia. Qed.

Lemma clamp18_idem v : clamp18 (clamp18 v) = clamp18 v.
Proof. unfold clamp18. lia. Qed.

Lemma hqs_unfold (B : Backend) bgr lw d :
  high_quality_stencil bgr lw d =
  (nbgr <- normalize_size bgr ;;
   sharp <- enhance nbgr ;;
   combo <- line_extractor sharp (Int (clamp18 d)) ;;
   combo <- morphological_cleaner combo ;;
   lines <- line_renderer (skeletonizer combo) (Int (clamp18 lw)) ;;
   shade <- add_halftone_shading sharp (shade_strength (Int (clamp18 d))) ;;
   compositor nbgr lines shade).
Proof.
  unfold high_quality_stencil. cbn [Py.int bind ret].
  rewrite !clamp_int. reflexivity.
Qed.

(** C1.  Both parameters are clamped into 1..8 before anything else uses
    them: a call with any integers [lw], [d] has the outcome (image or
    exception) of the call with their clamped values, so no outcome depends
    on a parameter being out of range; in particular lineWeight 0 behaves as
    lineWeight 1 and detail 99 as detail 8. *)
Theorem parameters_are_clamped (B : Backend) (bgr : Mat bgr_px) (lw d : Z) :
  clamp (Int lw) (Int 1) (Int 8) = Int (clamp18 lw)
  /\ clamp (Int d) (Int 1) (Int 8) = Int (clamp18 d)
  /\ 1 <= clamp18 lw <= 8
  /\ 1 <= clamp18 d <= 8
  /\ high_quality_stencil bgr lw d
     = high_quality_stencil bgr (clamp18 lw) (clamp18 d)
  /\ high_quality_stencil bgr 0 d = high_quality_stencil bgr 1 d
  /\ high_quality_stencil bgr lw 99 = high_quality_stencil bgr lw 8.
Proof.
  split; [apply clamp_int|]. split; [apply clamp_int|].
  split; [apply clamp18_range|]. split; [apply clamp18_range|].
  split; [|split].
  - rewrite (hqs_unfold B bgr (clamp18 lw) (clamp18 d)), !clamp18_idem.
    apply hqs_unfold.
  - rewrite !hqs_unfold. reflexivity.
  - rewrite !hqs_unfold. reflexivity.
Qed.

(** ** Shading strength and the halftone cell *)

Lemma shade_strength_low d :
  d = 1 \/ d = 2 -> shade_strength (Int d) = Float 0.0%float.
Proof. intros [-> | ->]; vm_compute; reflexivity. Qed.

Lemma halftone_block_high d :
  3 <= d <= 8 ->
  Py.le (shade_strength (Int d)) (Int 0) = false
  /\ halftone_block (shade_strength (Int d)) = ret (12 - d).
Proof.
  intros Hd.
  assert (Hc : d = 3 \/ d = 4 \/ d = 5 \/ d = 6 \/ d = 7 \/ d = 8) by lia.
  destruct Hc as [-> | [-> | [-> | [-> | [-> | ->]]]]];
    split; vm_compute; reflexivity.
Qed.

(** C5.  For a detail that clamps to at most 2 the shading strength is 0,
    not positive, and [add_halftone_shading] returns the all-zero mask of
    the shape of its input: the Shader contributes no ink. *)
Theorem shading_gated_at_low_detail (B : Backend) (gray : Mat Z) (d : Z) :
  d <= 2 ->
  let strength := shade_strength (clamp (Int d) (Int 1) (Int 8)) in
  Py.le strength (Int 0) = true
  /\ add_halftone_shading gray strength = ret (zeros_like gray)
  /\ shape (zeros_like gray) = shape gray
  /\ Forall (fun v => v = 0) (data (zeros_like gray))
  /\ count_nonzero (zeros_like gray) = 0%nat.
Proof.
  intros Hd strength. subst strength. rewrite clamp_int.
  fold (clamp18 d).
  assert (Hc : clamp18 d = 1 \/ clamp18 d = 2) by (unfold clamp18; lia).
  rewrite (shade_strength_low Hc).
  split; [reflexivity|]. split; [reflexivity|]. split; [reflexivity|].
  assert (HF : Forall (fun v => v = 0) (data (zeros_like gray))).
  { unfold zeros_like, full. simpl. apply Forall_forall.
    intros x Hx. now apply repeat_spec in Hx. }
  split; [exact HF|].
  unfold count_nonzero. induction HF as [|x l Hx _ IH]; simpl; [reflexivity|].
  subst x. simpl. exact IH.
Qed.

Lemma shading_gated_at_low_detail_witness :
  2 <= 2 /\
  add_halftone_shading (B := Plain.backend) (full 2 2 200)
    (shade_strength (clamp (Int 2) (Int 1) (Int 8)))
  = ret (zeros_like (full 2 2 200)).
Proof.
  split; [lia|].
  apply (shading_gated_at_low_detail Plain.backend (full 2 2 200) (d := 2)). lia.
Defined.

(** ** The line extractor's parameters *)

(** C9.  For a detail in 1..8 the Canny thresholds are 40 + (8-detail)*6 and
    120 + (8-detail)*8; the adaptive window is clamp(31 - 2*detail, 15, 31),
    which is 31 - 2*detail, odd as it stands; the adaptive threshold is the
    Gaussian one with maximum 255 and offset 2, and its result is inverted
    (255 - th) before the OR with the edges. *)
Theorem line_extractor_parameters (d : Z) :
  1 <= d <= 8 ->
  canny_thresholds (Int d) = ret (40 + (8 - d) * 6, 120 + (8 - d) * 8)
  /\ clamp (Py.sub (Int 31) (Py.mul (Int d) (Int 2))) (Int 15) (Int 31)
     = Int (31 - 2 * d)
  /\ adaptive_block (Int d) = ret (31 - 2 * d)
  /\ Z.odd (31 - 2 * d) = true
  /\ 15 <= 31 - 2 * d <= 31
  /\ (forall (B : Backend) (sharp : Mat Z),
        line_extractor sharp (Int d) =
        (edges <- Canny sharp (40 + (8 - d) * 6) (120 + (8 - d) * 8) ;;
         th <- adaptiveThreshold sharp (Int 255) ADAPTIVE_THRESH_GAUSSIAN_C
                 THRESH_BINARY (31 - 2 * d) (Int 2) ;;
         bitwise_or edges (mmap (fun v => u8 (255 - v)) th)))
  /\ u8 (255 - 0) = 255 /\ u8 (255 - 255) = 0.
Proof.
  intros Hd.
  assert (Hc : d = 1 \/ d = 2 \/ d = 3 \/ d = 4 \/ d = 5 \/ d = 6 \/ d = 7 \/ d = 8)
    by lia.
  assert (Ht : canny_thresholds (Int d) = ret (40 + (8 - d) * 6, 120 + (8 - d) * 8))
    by reflexivity.
  assert (Hb : adaptive_block (Int d) = ret (31 - 2 * d)).
  { destruct Hc as [-> | [-> | [-> | [-> | [-> | [-> | [-> | ->]]]]]]]; reflexivity. }
  split; [exact Ht|].
  split; [cbn [Py.sub Py.mul]; rewrite clamp_int; f_equal; lia|].
  split; [exact Hb|].
  split; [destruct Hc as [-> | [-> | [-> | [-> | [-> | [-> | [-> | ->]]]]]]]; reflexivity|].
  split; [lia|].
  split; [|split; reflexivity].
  intros B sharp. unfold line_extractor. rewrite Ht, Hb. reflexivity.
Qed.

Lemma line_extractor_parameters_witness :
  1 <= 4 <= 8 /\ canny_thresholds (Int 4) = ret (64, 152)
  /\ adaptive_block (Int 4) = ret 23.
Proof.
  split; [lia|].
  pose proof (@line_extractor_parameters 4 ltac:(lia)) as H.
  split; [exact (proj1 H) | exact (proj1 (proj2 (proj2 H)))].
Defined.

(** ** Failure of the pipeline *)

Lemma bind_inr A C (m : result A) (k : A -> result C) r :
  bind m k = inr r -> exists a, m = inr a /\ k a = inr r.
Proof. destruct m as [e|a]; simpl; [discriminate|]. intros H. now exists a. Qed.

Lemma fails_bind A C (m : result A) (k : A -> result C) :
  (forall a, m = inr a -> fails (k a)) -> fails (bind m k).
Proof.
  intros H. destruct m as [e|a]; simpl.
  - now exists e.
  - now apply H.
Qed.

Lemma fails_not_inr A (m : result A) r : fails m -> m <> inr r.
Proof. intros [e ->]. discriminate. Qed.

Ltac bind_inv H :=
  let a := fresh "a" in
  let Ha := fresh "H" a in
  apply bind_inr in H; destruct H as (a & Ha & H).

Lemma enhance_shape (B : Backend) bgr sharp :
  enhance bgr = inr sharp -> shape sharp = shape bgr.
Proof.
  unfold enhance. intros H.
  bind_inv H. bind_inv H. bind_inv H. bind_inv H.
  apply addWeighted_shape in H. apply clahe_shape in Ha1.
  apply bilateralFilter_shape in Ha0. apply cvtColor_shape in Ha.
  congruence.
Qed.

Lemma line_renderer_returns sk k :
  line_renderer sk (Int k)
  = ret (dilate sk (getStructuringElement MORPH_ELLIPSE (clamp18 k, clamp18 k)) 1).
Proof. unfold line_renderer. rewrite clamp_int. reflexivity. Qed.

Lemma shading_fails_small (B : Backend) (sharp : Mat Z) (d : Z) :
  3 <= d <= 8 ->
  Z.of_nat (cols sharp) < 12 - d \/ Z.of_nat (rows sharp) < 12 - d ->
  fails (add_halftone_shading sharp (shade_strength (Int d))).
Proof.
  intros Hd Hsmall. unfold add_halftone_shading.
  destruct (halftone_block_high Hd) as [Hle Hblock].
  rewrite Hle, Hblock. cbn [bind ret].
  apply fails_bind. intros small Hsmall'. exfalso.
  revert Hsmall'. apply fails_not_inr. apply resize_dsize_empty.
  destruct Hsmall as [Hw | Hh]; [left | right];
    rewrite Z.div_small; lia.
Qed.

(** Whatever the filters return, an image one of whose normalised sides is
    shorter than the halftone cell makes the pipeline raise. *)
Lemma hqs_fails_small (B : Backend) bgr lw d nbgr :
  3 <= d ->
  normalize_size bgr = inr nbgr ->
  Z.of_nat (cols nbgr) < 12 - clamp18 d \/ Z.of_nat (rows nbgr) < 12 - clamp18 d ->
  fails (high_quality_stencil bgr lw d).
Proof.
  intros Hd Hn Hsmall. rewrite hqs_unfold, Hn. cbn [bind].
  apply fails_bind. intros sharp Hsharp.
  apply enhance_shape in Hsharp. injection Hsharp as Hr Hc.
  apply fails_bind. intros combo _.
  apply fails_bind. intros combo' _.
  rewrite line_renderer_returns. cbn [bind ret].
  apply fails_bind. intros shade Hshade. exfalso.
  revert Hshade. apply fails_not_inr. apply shading_fails_small.
  - unfold clamp18. lia.
  - rewrite Hr, Hc. exact Hsmall.
Qed.

Lemma normalize_size_small (B : Backend) bgr :
  (rows bgr <= 1400)%nat -> (cols bgr <= 1400)%nat -> normalize_size bgr = ret bgr.
Proof.
  intros Hr Hc. unfold normalize_size.
  assert (Hgt : Py.gt (Py.max (Int (Z.of_nat (rows bgr))) (Int (Z.of_nat (cols bgr))))
                  (Int 1400) = false).
  { unfold Py.max, Py.gt, Py.lt.
    destruct (Z.of_nat (rows bgr) <? Z.of_nat (cols bgr)); apply Z.ltb_ge; lia. }
  rewrite Hgt. reflexivity.
Qed.

Lemma fails_bind_l A C (m : result A) (k : A -> result C) :
  fails m -> fails (bind m k).
Proof. intros [e ->]. now exists e. Qed.

(** A zero-area image never gets past the first OpenCV call. *)
Lemma zero_area_fails (B : Backend) bgr lw d :
  is_empty bgr = true -> fails (high_quality_stencil bgr lw d).
Proof.
  intros He. rewrite hqs_unfold.
  apply fails_bind. intros nbgr Hn.
  assert (Hnb : nbgr = bgr).
  { unfold normalize_size in Hn. destruct (Py.ne _ _).
    - exfalso. revert Hn. apply fails_not_inr.
      apply fails_bind. intros w' _. apply fails_bind. intros h' _.
      now apply resize_src_empty.
    - now injection Hn. }
  subst nbgr. apply fails_bind_l. unfold enhance. apply fails_bind_l.
  now apply cvtColor_src_empty.
Qed.

(** C2 (the code departs from it).  A 3 x 3 image has positive width and
    height, yet with lineWeight 3 and detail 4 the pipeline raises, whatever
    the filters return: the halftone cell is 8 pixels wide and the
    downsample target is 3 // 8 = 0 in both directions. *)
Theorem positive_area_image_fails (B : Backend) :
  let img := full 3 3 (0, 0, 0) in
  is_empty img = false
  /\ halftone_block (shade_strength (clamp (Int 4) (Int 1) (Int 8))) = ret 8
  /\ Z.of_nat (cols img) / 8 = 0
  /\ Z.of_nat (rows img) / 8 = 0
  /\ fails (high_quality_stencil img 3 4).
Proof.
  intros img. split; [reflexivity|]. split; [vm_compute; reflexivity|].
  split; [reflexivity|]. split; [reflexivity|].
  apply hqs_fails_small with (nbgr := img).
  - lia.
  - apply normalize_size_small; simpl; lia.
  - left. vm_compute. reflexivity.
Qed.

(** C10.  With a detail of at least 3 the halftone cell is [block] = 12 -
    detail pixels (4..9, inside the clamp range 4..10).  If the normalised
    image is narrower or lower than the cell, then [w // block] or
    [h // block] is 0, the halftone [resize] raises, and
    [high_quality_stencil] returns no image. *)
Theorem small_image_halftone_failure (B : Backend) bgr nbgr (lw d : Z) :
  3 <= d ->
  normalize_size bgr = inr nbgr ->
  exists block,
    halftone_block (shade_strength (clamp (Int d) (Int 1) (Int 8))) = ret block
    /\ 4 <= block <= 10
    /\ (Z.of_nat (cols nbgr) < block \/ Z.of_nat (rows nbgr) < block ->
        (Z.of_nat (cols nbgr) / block = 0 \/ Z.of_nat (rows nbgr) / block = 0)
        /\ (forall sharp : Mat Z,
              shape sharp = shape nbgr ->
              fails (add_halftone_shading sharp
                       (shade_strength (clamp (Int d) (Int 1) (Int 8)))))
        /\ fails (high_quality_stencil bgr lw d)).
Proof.
  intros Hd Hn. exists (12 - clamp18 d).
  assert (Hr : 3 <= clamp18 d <= 8) by (unfold clamp18; lia).
  rewrite clamp_int. fold (clamp18 d).
  split; [apply (halftone_block_high Hr)|].
  split; [lia|].
  intros Hsmall. split; [|split].
  - destruct Hsmall; [left | right]; apply Z.div_small; lia.
  - intros sharp Hs. injection Hs as Hrows Hcols.
    apply shading_fails_small; [exact Hr|]. now rewrite Hrows, Hcols.
  - eapply hqs_fails_small; eassumption.
Qed.

Lemma small_image_halftone_failure_witness :
  3 <= 4
  /\ normalize_size (B := Plain.backend) (full 3 3 (0, 0, 0)) = inr (full 3 3 (0, 0, 0))
  /\ fails (high_quality_stencil (B := Plain.backend) (full 3 3 (0, 0, 0)) 3 4).
Proof.
  split; [lia|]. split; [reflexivity|].
  destruct (@small_image_halftone_failure Plain.backend
              (full 3 3 (0, 0, 0)) (full 3 3 (0, 0, 0)) 3 4
              ltac:(lia) eq_refl) as (block & Hb & _ & Hf).
  assert (E : block = 8) by (vm_compute in Hb; now injection Hb).
  apply Hf. subst block. left. vm_compute. reflexivity.
Defined.

(** ** The size normalisation *)

Lemma normalize_size_2099_2 (B : Backend) bgr :
  shape bgr = (2099%nat, 2%nat) ->
  normalize_size bgr = resize CV_8UC3 bgr (1, 1399) INTER_AREA.
Proof.
  intros Hs. injection Hs as Hr Hc. unfold normalize_size. rewrite Hr, Hc.
  set (scale := if Py.gt _ _ then _ else _).
  assert (Hscale : scale = Py.truediv (Int 1400) (Int 2099)) by reflexivity.
  clearbody scale. subst scale.
  replace (Py.ne _ _) with true by (vm_compute; reflexivity).
  replace (Py.int (Py.mul (Int (Z.of_nat 2)) _)) with (@ret Z 1)
    by (vm_compute; reflexivity).
  replace (Py.int (Py.mul (Int (Z.of_nat 2099)) _)) with (@ret Z 1399)
    by (vm_compute; reflexivity).
  reflexivity.
Qed.

(** C4 (the code departs from it).  A 2099 x 2 image has its longer side
    above 1400, and the size handed to [resize] is int(2099 * (1400/2099)) =
    1399 by int(2 * (1400/2099)) = 1: the longer side of the normalised
    image is 1399, not 1400. *)
Theorem downscale_misses_1400 (B : Backend) bgr nbgr :
  shape bgr = (2099%nat, 2%nat) ->
  normalize_size bgr = inr nbgr ->
  Py.int (Py.mul (Int 2099) (Py.truediv (Int 1400) (Int 2099))) = ret 1399
  /\ shape nbgr = (1399%nat, 1%nat)
  /\ Nat.max (rows nbgr) (cols nbgr) <> 1400%nat.
Proof.
  intros Hs Hn. rewrite (@normalize_size_2099_2 B bgr Hs) in Hn.
  apply (@resize_shape B CV_8UC3) in Hn.
  split; [vm_compute; reflexivity|]. split; [exact Hn|].
  injection Hn as -> ->. vm_compute. discriminate.
Qed.

Lemma downscale_misses_1400_witness :
  shape (full 2099 2 (0, 0, 0)) = (2099%nat, 2%nat)
  /\ exists nbgr,
       normalize_size (B := Plain.backend) (full 2099 2 (0, 0, 0)) = inr nbgr
       /\ shape nbgr = (1399%nat, 1%nat).
Proof.
  split; [reflexivity|].
  eexists. split; [vm_compute; reflexivity|].
  refine (proj1 (proj2 (@downscale_misses_1400 Plain.backend
                          (full 2099 2 (0, 0, 0)) _ eq_refl _))).
  vm_compute. reflexivity.
Defined.

(** ** The compositor *)

Lemma nth_error_combine A C (l : list A) (l' : list C) i a c :
  nth_error (combine l l') i = Some (a, c) ->
  nth_error l i = Some a /\ nth_error l' i = Some c.
Proof.
  revert l' i. induction l as [|x l IH]; intros [|y l'] [|i]; simpl;
    try discriminate.
  - intros H. injection H as -> ->. now split.
  - apply IH.
Qed.

Lemma nth_error_map_inv A C (f : A -> C) (l : list A) i y :
  nth_error (map f l) i = Some y -> exists x, nth_error l i = Some x /\ f x = y.
Proof.
  rewrite nth_error_map. destruct (nth_error l i) as [x|]; simpl; [|discriminate].
  intros H. injection H as <-. now exists x.
Qed.

Lemma compositor_spec bgr lines shade out :
  compositor bgr lines shade = inr out ->
  exists ink,
    bitwise_or lines shade = inr ink
    /\ shape out = shape bgr
    /\ forall i p, nth_error (data out) i = Some p ->
         exists v, nth_error (data ink) i = Some v
                   /\ p = if 0 <? v then ink_bgr else white.
Proof.
  unfold compositor. intros H. bind_inv H. exists a. split; [exact Ha|].
  destruct (same_shape _ _); [|discriminate].
  injection H as <-. split; [reflexivity|].
  intros i p Hp. cbn [data full gt_mask mmap] in Hp.
  apply nth_error_map_inv in Hp. destruct Hp as ([q m] & Hqm & <-).
  apply nth_error_combine in Hqm. destruct Hqm as [Hq Hm].
  apply nth_error_map_inv in Hm. destruct Hm as (v & Hv & <-).
  exists v. split; [exact Hv|].
  apply nth_error_In, repeat_spec in Hq. subst q. cbn [fst snd].
  destruct (0 <? v); reflexivity.
Qed.

Lemma hqs_inr (B : Backend) bgr lw d out :
  high_quality_stencil bgr lw d = inr out ->
  exists nbgr lines shade,
    normalize_size bgr = inr nbgr /\ compositor nbgr lines shade = inr out.
Proof.
  rewrite hqs_unfold. intros H.
  bind_inv H. bind_inv H. bind_inv H. bind_inv H. bind_inv H. bind_inv H.
  eauto.
Qed.

Lemma map_combine_repeat_l A C D (g : A * C -> D) (a : A) (n : nat) (l : list C) :
  map g (combine (repeat a n) l) = map (fun x => g (a, x)) (firstn n l).
Proof.
  revert l. induction n as [|n IH]; intros [|x l]; simpl; try reflexivity.
  now rewrite IH.
Qed.

Lemma map_combine_repeat_r A C D (g : C * A -> D) (a : A) (n : nat) (l : list C) :
  map g (combine l (repeat a n)) = map (fun x => g (x, a)) (firstn n l).
Proof.
  revert l. induction n as [|n IH]; intros [|x l]; simpl; try reflexivity.
  now rewrite IH.
Qed.

(** The compositor paints the first [rows * cols] samples of the OR of its
    two masks, in order, and nothing else. *)
Lemma compositor_exact bgr lines shade out :
  compositor bgr lines shade = inr out ->
  exists ink,
    bitwise_or lines shade = inr ink
    /\ shape out = shape bgr
    /\ data out = map (fun v => if 0 <? v then ink_bgr else white)
                      (firstn (rows bgr * cols bgr) (data ink)).
Proof.
  unfold compositor. intros H. bind_inv H. exists a. split; [exact Ha|].
  destruct (same_shape _ _); [|discriminate].
  injection H as <-. split; [reflexivity|].
  cbn [data full gt_mask mmap rows cols].
  rewrite map_combine_repeat_l, firstn_map, map_map. apply map_ext.
  intros v. cbn [fst snd]. destruct (0 <? v); reflexivity.
Qed.

(** The stages a returned image went through. *)
Lemma hqs_stages (B : Backend) bgr lw d out :
  high_quality_stencil bgr lw d = inr out ->
  exists nbgr sharp combo combo' lines shade,
    normalize_size bgr = inr nbgr
    /\ enhance nbgr = inr sharp
    /\ line_extractor sharp (Int (clamp18 d)) = inr combo
    /\ morphological_cleaner combo = inr combo'
    /\ line_renderer (skeletonizer combo') (Int (clamp18 lw)) = inr lines
    /\ add_halftone_shading sharp (shade_strength (Int (clamp18 d))) = inr shade
    /\ compositor nbgr lines shade = inr out.
Proof.
  rewrite hqs_unfold. intros H.
  bind_inv H. bind_inv H. bind_inv H. bind_inv H. bind_inv H. bind_inv H.
  exists a, a0, a1, a2, a3, a4. repeat split; assumption.
Qed.

(** C7.  An image returned by the pipeline has the shape of the normalised
    image.  Its pixels are, in order, the samples of the OR of the two masks
    the pipeline itself computed (the Line Renderer's mask of the cleaned,
    skeletonised ink candidates, and the Shader's mask of the sharpened
    image): InkColor (140, 90, 255) where the OR is positive, white
    (255, 255, 255) elsewhere, one pixel for each canvas position the mask
    has a sample for.  So exactly the ink-mask pixels are InkColor and every
    pixel is white or InkColor. *)
Theorem output_is_white_or_ink (B : Backend) bgr lw d out :
  high_quality_stencil bgr lw d = inr out ->
  PURPLE = (140, 90, 255)
  /\ exists nbgr sharp combo combo' lines shade ink,
       normalize_size bgr = inr nbgr
       /\ enhance nbgr = inr sharp
       /\ line_extractor sharp (Int (clamp18 d)) = inr combo
       /\ morphological_cleaner combo = inr combo'
       /\ line_renderer (skeletonizer combo') (Int (clamp18 lw)) = inr lines
       /\ add_halftone_shading sharp (shade_strength (Int (clamp18 d))) = inr shade
       /\ bitwise_or lines shade = inr ink
       /\ shape out = shape nbgr
       /\ map bgr_to_rgb (data out)
          = map (fun v => if 0 <? v then PURPLE else (255, 255, 255))
                (firstn (rows nbgr * cols nbgr) (data ink))
       /\ (length (data ink) = (rows nbgr * cols nbgr)%nat ->
           length (data out) = (rows nbgr * cols nbgr)%nat)
       /\ (forall i p, nth_error (data out) i = Some p ->
             exists v, nth_error (data ink) i = Some v
                       /\ bgr_to_rgb p = if 0 <? v then PURPLE else (255, 255, 255))
       /\ (forall i v, (i < rows nbgr * cols nbgr)%nat ->
             nth_error (data ink) i = Some v ->
             exists p, nth_error (data out) i = Some p
                       /\ bgr_to_rgb p = if 0 <? v then PURPLE else (255, 255, 255))
       /\ Forall (fun p => bgr_to_rgb p = (255, 255, 255) \/ bgr_to_rgb p = PURPLE)
                 (data out).
Proof.
  intros H. split; [reflexivity|].
  apply hqs_stages in H.
  destruct H as (nbgr & sharp & combo & combo' & lines & shade
                 & Hn & He & Hl & Hm & Hr & Hsh & Hc).
  pose proof (compositor_exact _ _ _ Hc) as (ink & Hor & Hs & Hdata).
  exists nbgr, sharp, combo, combo', lines, shade, ink.
  do 8 (split; [assumption|]).
  assert (Hmap : map bgr_to_rgb (data out)
                 = map (fun v => if 0 <? v then PURPLE else (255, 255, 255))
                       (firstn (rows nbgr * cols nbgr) (data ink))).
  { rewrite Hdata, map_map. apply map_ext. intros v.
    destruct (0 <? v); reflexivity. }
  split; [exact Hmap|].
  split.
  { intros Hlen. rewrite Hdata, length_map, firstn_all2; lia. }
  assert (Hrgb : forall i p, nth_error (data out) i = Some p ->
             exists v, nth_error (data ink) i = Some v
                       /\ bgr_to_rgb p = if 0 <? v then PURPLE else (255, 255, 255)).
  { intros i p Hp. rewrite Hdata in Hp. apply nth_error_map_inv in Hp.
    destruct Hp as (v & Hv & <-).
    rewrite nth_error_firstn in Hv.
    destruct (Nat.ltb_spec i (rows nbgr * cols nbgr)); [|discriminate].
    exists v. split; [exact Hv|]. destruct (0 <? v); reflexivity. }
  split; [exact Hrgb|].
  split.
  { intros i v Hi Hv. rewrite Hdata, nth_error_map, nth_error_firstn.
    destruct (Nat.ltb_spec i (rows nbgr * cols nbgr)); [|lia].
    rewrite Hv. cbn [option_map]. eexists. split; [reflexivity|].
    destruct (0 <? v); reflexivity. }
  apply Forall_forall. intros p Hin.
  apply In_nth_error in Hin. destruct Hin as [i Hi].
  destruct (Hrgb i p Hi) as (v & _ & ->).
  destruct (0 <? v); [right | left]; reflexivity.
Qed.

Lemma output_is_white_or_ink_witness :
  exists out,
    high_quality_stencil (B := Plain.backend) Plain.square12 3 4 = inr out
    /\ Forall (fun p => bgr_to_rgb p = (255, 255, 255) \/ bgr_to_rgb p = PURPLE)
              (data out).
Proof.
  eexists. split; [vm_compute; reflexivity|].
  match goal with
  | |- Forall _ (data ?o) =>
      assert (E : high_quality_stencil (B := Plain.backend) Plain.square12 3 4 = inr o)
        by (vm_compute; reflexivity)
  end.
  destruct (proj2 (@output_is_white_or_ink Plain.backend Plain.square12 3 4 _ E))
    as (nbgr & sharp & combo & combo' & lines & shade & ink & HF).
  exact (proj2 (proj2 (proj2 (proj2 (proj2 (proj2 (proj2 (proj2
        (proj2 (proj2 (proj2 (proj2 HF)))))))))))).
Defined.

(** ** Line weight *)

Lemma dilate_px_nonneg src fp r c : 0 <= dilate_px src fp r c.
Proof. induction fp as [|o fp IH]; simpl; lia. Qed.

Lemma dilate_px_ge src fp r c o :
  In o fp -> sample_at src (r + fst o) (c + snd o) <= dilate_px src fp r c.
Proof.
  induction fp as [|o' fp IH]; simpl; [tauto|].
  intros [-> | Hin]; [lia|]. specialize (IH Hin). lia.
Qed.

(** A larger footprint never lowers a dilated sample. *)
Lemma dilate_px_incl src fp1 fp2 r c :
  incl fp1 fp2 -> dilate_px src fp1 r c <= dilate_px src fp2 r c.
Proof.
  induction fp1 as [|o fp1 IH]; simpl; intros Hi.
  - apply dilate_px_nonneg.
  - apply Z.max_lub.
    + apply dilate_px_ge, Hi. now left.
    + apply IH. intros x Hx. apply Hi. now right.
Qed.

Lemma count_map_le A (f g : A -> Z) (l : list A) :
  (forall x, f x <> 0 -> g x <> 0) ->
  (length (filter (fun v => negb (v =? 0)%Z) (map f l))
   <= length (filter (fun v => negb (v =? 0)%Z) (map g l)))%nat.
Proof.
  intros Hfg. induction l as [|x l IH]; simpl; [lia|].
  destruct (f x =? 0) eqn:Hf; destruct (g x =? 0) eqn:Hg; simpl; try lia.
  apply Z.eqb_neq in Hf. apply Z.eqb_eq in Hg. now apply Hfg in Hf.
Qed.

Lemma dilate_once_count src fp1 fp2 :
  incl fp1 fp2 ->
  (count_nonzero (dilate_once fp1 src) <= count_nonzero (dilate_once fp2 src))%nat.
Proof.
  intros Hi. unfold count_nonzero, dilate_once. cbn [data].
  apply count_map_le. intros i Hnz.
  pose proof (dilate_px_nonneg src fp1 (i / Z.of_nat (cols src)) (i mod Z.of_nat (cols src))).
  pose proof (@dilate_px_incl src fp1 fp2 (i / Z.of_nat (cols src))
                (i mod Z.of_nat (cols src)) Hi).
  lia.
Qed.

Lemma inclb_incl l1 l2 : inclb l1 l2 = true -> incl l1 l2.
Proof.
  unfold inclb. rewrite forallb_forall. intros H [a b] Hin.
  apply H in Hin. apply existsb_exists in Hin.
  destruct Hin as ([a' b'] & Hin & Heq). cbn [fst snd] in Heq.
  apply andb_true_iff in Heq. destruct Heq as [Ha Hb].
  apply Z.eqb_eq in Ha. apply Z.eqb_eq in Hb. now subst.
Qed.

(** The eight ellipses are nested around their anchors. *)
Lemma ellipse_nested k1 k2 :
  1 <= k1 -> k1 <= k2 -> k2 <= 8 ->
  incl (ellipse_footprint k1) (ellipse_footprint k2).
Proof.
  intros H1 H12 H2.
  assert (C1 : k1 = 1 \/ k1 = 2 \/ k1 = 3 \/ k1 = 4 \/ k1 = 5 \/ k1 = 6 \/ k1 = 7 \/ k1 = 8)
    by lia.
  assert (C2 : k2 = 1 \/ k2 = 2 \/ k2 = 3 \/ k2 = 4 \/ k2 = 5 \/ k2 = 6 \/ k2 = 7 \/ k2 = 8)
    by lia.
  destruct C1 as [-> | [-> | [-> | [-> | [-> | [-> | [-> | ->]]]]]]];
    destruct C2 as [-> | [-> | [-> | [-> | [-> | [-> | [-> | ->]]]]]]];
    first [ exfalso; lia | apply inclb_incl; vm_compute; reflexivity ].
Qed.

(** C6.  For one skeleton and line weights 1 <= k1 <= k2 <= 8 the Line
    Renderer returns both masks, and the mask for [k2] has at least as many
    ink pixels as the mask for [k1]. *)
Theorem line_weight_monotone (sk : Mat Z) (k1 k2 : Z) :
  1 <= k1 -> k1 <= k2 -> k2 <= 8 ->
  exists o1 o2,
    line_renderer sk (Int k1) = ret o1
    /\ line_renderer sk (Int k2) = ret o2
    /\ (count_nonzero o1 <= count_nonzero o2)%nat.
Proof.
  intros H1 H12 H2. do 2 eexists.
  split; [apply line_renderer_returns|]. split; [apply line_renderer_returns|].
  replace (clamp18 k1) with k1 by (unfold clamp18; lia).
  replace (clamp18 k2) with k2 by (unfold clamp18; lia).
  unfold dilate. cbn [Z.to_nat Pos.to_nat Pos.iter_op Nat.add Nat.iter nat_rect].
  apply dilate_once_count. now apply ellipse_nested.
Qed.

Lemma line_weight_monotone_witness :
  1 <= 2 /\ 2 <= 5 /\ 5 <= 8 /\
  exists o1 o2,
    line_renderer (mkMat 3 3 [0; 0; 0; 0; 255; 0; 0; 0; 0]) (Int 2) = ret o1
    /\ line_renderer (mkMat 3 3 [0; 0; 0; 0; 255; 0; 0; 0; 0]) (Int 5) = ret o2
    /\ (count_nonzero o1 <= count_nonzero o2)%nat.
Proof.
  split; [lia|]. split; [lia|]. split; [lia|].
  apply (@line_weight_monotone (mkMat 3 3 [0; 0; 0; 0; 255; 0; 0; 0; 0]) 2 5); lia.
Defined.

(** ** The skeleton is a fixed point *)

Lemma sub_mask_trans l1 l2 l3 : sub_mask l1 l2 -> sub_mask l2 l3 -> sub_mask l1 l3.
Proof.
  unfold sub_mask. intros H12. revert l3.
  induction H12 as [|a b l1 l2 Hab _ IH]; intros l3 H23; inversion H23; subst.
  - constructor.
  - constructor; auto.
Qed.

Lemma sub_mask_count l' l :
  sub_mask l' l ->
  (count_true l' <= count_true l)%nat
  /\ (count_true l' = count_true l -> l' = l).
Proof.
  unfold count_true. induction 1 as [|a b l' l Hab _ [IHle IHeq]]; simpl.
  - split; [lia | reflexivity].
  - destruct a, b; simpl; try (specialize (Hab eq_refl); discriminate).
    + split; [lia|]. intros E. f_equal. apply IHeq. lia.
    + split; [lia|]. intros E. lia.
    + split; [lia|]. intros E. f_equal. now apply IHeq.
Qed.

Lemma sub_mask_indexed (f : nat * bool -> bool) (l : list bool) (s : nat) :
  (forall iv, f iv = true -> snd iv = true) ->
  sub_mask (map f (combine (seq s (length l)) l)) l.
Proof.
  intros Hf. revert s. induction l as [|b l IH]; intros s; simpl.
  - constructor.
  - constructor; [|apply IH]. intros E. now apply Hf in E.
Qed.

Lemma thin_pass_sub (B : Backend) p m :
  sub_mask (data (thin_pass p m)) (data m)
  /\ rows (thin_pass p m) = rows m /\ cols (thin_pass p m) = cols m.
Proof.
  split; [|split; reflexivity].
  unfold thin_pass, indexed. cbn [data]. apply sub_mask_indexed.
  intros iv E. now apply andb_true_iff in E.
Qed.

Lemma thin_iteration_sub (B : Backend) m :
  sub_mask (data (thin_iteration m)) (data m)
  /\ rows (thin_iteration m) = rows m /\ cols (thin_iteration m) = cols m.
Proof.
  unfold thin_iteration.
  destruct (thin_pass_sub B false m) as (H1 & R1 & C1).
  destruct (thin_pass_sub B true (thin_pass false m)) as (H2 & R2 & C2).
  split; [eapply sub_mask_trans; eassumption|]. split; congruence.
Qed.

Lemma mat_eqb_eq (a b : Mat bool) : mat_eqb a b = true <-> a = b.
Proof.
  unfold mat_eqb. split.
  - intros H. apply andb_true_iff in H. destruct H as [Hs Hd].
    apply andb_true_iff in Hs. destruct Hs as [Hr Hc].
    apply Nat.eqb_eq in Hr. apply Nat.eqb_eq in Hc.
    destruct (list_eq_dec bool_dec (data a) (data b)) as [E|]; [|discriminate].
    destruct a, b. simpl in *. now subst.
  - intros <-. rewrite !Nat.eqb_refl.
    destruct (list_eq_dec bool_dec (data a) (data a)); [reflexivity | contradiction].
Qed.

(** A round either leaves the mask alone or removes ink. *)
Lemma thin_iteration_progress (B : Backend) m :
  thin_iteration m = m
  \/ (count_true (data (thin_iteration m)) < count_true (data m))%nat.
Proof.
  destruct (thin_iteration_sub B m) as (Hsub & Hr & Hc).
  destruct (sub_mask_count Hsub) as [Hle Heq].
  destruct (Nat.eq_dec (count_true (data (thin_iteration m))) (count_true (data m)))
    as [E|NE]; [left | right; lia].
  apply Heq in E. destruct (thin_iteration m), m. simpl in *. now subst.
Qed.

(** With the ink count as fuel the loop stops on a fixed point of the
    round. *)
Lemma thin_loop_fixed (B : Backend) fuel m :
  (count_true (data m) <= fuel)%nat ->
  thin_iteration (thin_loop fuel m) = thin_loop fuel m.
Proof.
  revert m. induction fuel as [|n IH]; intros m Hm; simpl.
  - destruct (thin_iteration_progress B m) as [E | Hlt]; [exact E | lia].
  - destruct (mat_eqb (thin_iteration m) m) eqn:Heq.
    + now apply mat_eqb_eq in Heq.
    + apply IH. destruct (thin_iteration_progress B m) as [E | Hlt]; [|lia].
      apply mat_eqb_eq in E. congruence.
Qed.

Lemma thin_loop_at_fixed (B : Backend) fuel m :
  thin_iteration m = m -> thin_loop fuel m = m.
Proof.
  intros E. destruct fuel as [|n]; simpl; [reflexivity|].
  rewrite E. now rewrite (proj2 (mat_eqb_eq m m) eq_refl).
Qed.

Lemma skeletonize_fixed (B : Backend) img :
  thin_iteration (skeletonize img) = skeletonize img.
Proof. unfold skeletonize. apply thin_loop_fixed. lia. Qed.

Lemma remask (s : Mat bool) :
  mmap (fun v => negb (v =? 0))
    (gt_mask 0 (mmap (fun b : bool => u8 ((if b then 1 else 0) * 255)) s)) = s.
Proof.
  destruct s as [r c l]. unfold gt_mask, mmap. cbn [rows cols data]. f_equal.
  rewrite !map_map. rewrite <- (map_id l) at 2. apply map_ext.
  intros [|]; reflexivity.
Qed.

(** C8.  The Skeletonizer stage applied to its own output returns that
    output, and the skeleton it computes is a fixed point of the thinning
    round. *)
Theorem skeletonizer_idempotent (B : Backend) (combo : Mat Z) :
  skeletonizer (skeletonizer combo) = skeletonizer combo
  /\ thin_iteration (skeletonize (gt_mask 0 combo)) = skeletonize (gt_mask 0 combo).
Proof.
  split; [|apply skeletonize_fixed].
  unfold skeletonizer. f_equal.
  unfold skeletonize at 1. rewrite remask.
  apply thin_loop_at_fixed, skeletonize_fixed.
Qed.

(** * Further properties of the code *)

(** ** [clamp] and the parameters derived from [detail] *)

(** X1.  With integer arguments and [a <= b], [clamp(v, a, b)] lies between
    [a] and [b], leaves a value already in range alone, and clamping twice
    is clamping once. *)
Theorem clamp_within_bounds (v a b : Z) :
  a <= b ->
  exists c,
    clamp (Int v) (Int a) (Int b) = Int c
    /\ a <= c <= b
    /\ (a <= v <= b -> c = v)
    /\ (v < a -> c = a)
    /\ (b < v -> c = b)
    /\ clamp (Int c) (Int a) (Int b) = Int c.
Proof.
  intros Hab. exists (Z.max a (Z.min b v)).
  split; [apply clamp_int|]. split; [lia|]. split; [lia|]. split; [lia|].
  split; [lia|]. rewrite clamp_int. f_equal. lia.
Qed.

Lemma clamp_within_bounds_witness :
  1 <= 8 /\ exists c, clamp (Int 99) (Int 1) (Int 8) = Int c /\ 1 <= c <= 8.
Proof.
  split; [lia|].
  destruct (@clamp_within_bounds 99 1 8 ltac:(lia)) as (c & Hc & Hr & _).
  exists c. split; assumption.
Defined.

Lemma adaptive_block_value (d : Z) :
  let x := Z.max 15 (Z.min 31 (31 - 2 * d)) in
  clamp (Py.sub (Int 31) (Py.mul (Int d) (Int 2))) (Int 15) (Int 31) = Int x
  /\ x mod 2 = 1
  /\ adaptive_block (Int d) = ret x.
Proof.
  intros x.
  assert (Hx : clamp (Py.sub (Int 31) (Py.mul (Int d) (Int 2))) (Int 15) (Int 31) = Int x).
  { cbn [Py.sub Py.mul]. rewrite clamp_int. unfold x. f_equal. lia. }
  assert (Hodd : exists k, x = 2 * k + 1).
  { destruct (Z_le_gt_dec d 0); [exists 15; unfold x; lia|].
    destruct (Z_le_gt_dec 8 d); [exists 7; unfold x; lia|].
    exists (15 - d). unfold x. lia. }
  destruct Hodd as [k Hk].
  assert (Hmod : x mod 2 = 1).
  { rewrite Hk, Z.add_comm, Z.mul_comm, Z_mod_plus_full. reflexivity. }
  split; [exact Hx|]. split; [exact Hmod|].
  unfold adaptive_block. rewrite Hx. cbn [Py.int bind ret]. rewrite Hmod.
  reflexivity.
Qed.

(** X2.  For every integer detail, clamped or not, the window handed to
    [cv2.adaptiveThreshold] is odd and lies between 15 and 31; the branch
    that adds 1 to an even window is never taken. *)
Theorem adaptive_block_is_odd (d : Z) :
  exists block,
    adaptive_block (Int d) = ret block
    /\ block = Z.max 15 (Z.min 31 (31 - 2 * d))
    /\ Z.odd block = true
    /\ 15 <= block <= 31
    /\ Py.int (clamp (Py.sub (Int 31) (Py.mul (Int d) (Int 2))) (Int 15) (Int 31))
       = ret block.
Proof.
  destruct (adaptive_block_value d) as (Hx & Hmod & Hb).
  eexists. split; [exact Hb|]. split; [reflexivity|]. split.
  - rewrite Zodd_mod, Hmod. reflexivity.
  - split; [lia|]. rewrite Hx. reflexivity.
Qed.

(** X3.  Over details 1..8 both Canny thresholds fall strictly as detail
    rises, the low one stays within 40..82 and the high one within 120..176,
    so the low threshold of any detail is below the high threshold of any
    other. *)
Theorem canny_thresholds_fall_with_detail (d1 d2 : Z) :
  1 <= d1 -> d1 < d2 -> d2 <= 8 ->
  exists lo1 hi1 lo2 hi2,
    canny_thresholds (Int d1) = ret (lo1, hi1)
    /\ canny_thresholds (Int d2) = ret (lo2, hi2)
    /\ lo2 < lo1 /\ hi2 < hi1
    /\ 40 <= lo2 /\ lo1 <= 82
    /\ 120 <= hi2 /\ hi1 <= 176
    /\ lo1 < hi2.
Proof.
  intros H1 H12 H2.
  exists (40 + (8 - d1) * 6), (120 + (8 - d1) * 8),
         (40 + (8 - d2) * 6), (120 + (8 - d2) * 8).
  split; [reflexivity|]. split; [reflexivity|]. lia.
Qed.

Lemma canny_thresholds_fall_with_detail_witness :
  1 <= 1 /\ 1 < 8 /\ 8 <= 8
  /\ canny_thresholds (Int 1) = ret (82, 176)
  /\ canny_thresholds (Int 8) = ret (40, 120).
Proof.
  split; [lia|]. split; [lia|]. split; [lia|].
  destruct (@canny_thresholds_fall_with_detail 1 8 ltac:(lia) ltac:(lia) ltac:(lia))
    as (lo1 & hi1 & lo2 & hi2 & E1 & E2 & _).
  split; reflexivity.
Defined.

(** X4.  Over details 1..8 the shading strength stays within 0.0..1.0 and
    never falls as detail rises; from detail 3 on the halftone cell is
    12 - detail pixels, so it shrinks from 9 to 4 and the upper clamp bound
    10 is never produced. *)
Theorem shading_strength_rises_with_detail (d1 d2 : Z) :
  1 <= d1 -> d1 <= d2 -> d2 <= 8 ->
  Py.le (Float 0.0%float) (shade_strength (Int d1)) = true
  /\ Py.le (shade_strength (Int d1)) (shade_strength (Int d2)) = true
  /\ Py.le (shade_strength (Int d2)) (Float 1.0%float) = true
  /\ (3 <= d1 ->
      halftone_block (shade_strength (Int d1)) = ret (12 - d1)
      /\ halftone_block (shade_strength (Int d2)) = ret (12 - d2)
      /\ 4 <= 12 - d2 <= 12 - d1 /\ 12 - d1 <= 9).
Proof.
  intros H1 H12 H2.
  assert (Hle : Py.le (Float 0.0%float) (shade_strength (Int d1)) = true
                /\ Py.le (shade_strength (Int d1)) (shade_strength (Int d2)) = true
                /\ Py.le (shade_strength (Int d2)) (Float 1.0%float) = true).
  { assert (C1 : d1 = 1 \/ d1 = 2 \/ d1 = 3 \/ d1 = 4 \/ d1 = 5 \/ d1 = 6 \/ d1 = 7 \/ d1 = 8)
      by lia.
    assert (C2 : d2 = 1 \/ d2 = 2 \/ d2 = 3 \/ d2 = 4 \/ d2 = 5 \/ d2 = 6 \/ d2 = 7 \/ d2 = 8)
      by lia.
    destruct C1 as [-> | [-> | [-> | [-> | [-> | [-> | [-> | ->]]]]]]];
      destruct C2 as [-> | [-> | [-> | [-> | [-> | [-> | [-> | ->]]]]]]];
      first [ exfalso; lia | repeat split; vm_compute; reflexivity ]. }
  destruct Hle as (Ha & Hb & Hc).
  split; [exact Ha|]. split; [exact Hb|]. split; [exact Hc|].
  intros H3.
  split; [apply halftone_block_high; lia|].
  split; [apply halftone_block_high; lia|]. lia.
Qed.

Lemma shading_strength_rises_with_detail_witness :
  1 <= 3 /\ 3 <= 8 /\ 8 <= 8
  /\ Py.le (shade_strength (Int 3)) (shade_strength (Int 8)) = true
  /\ halftone_block (shade_strength (Int 8)) = ret 4.
Proof.
  split; [lia|]. split; [lia|]. split; [lia|].
  destruct (@shading_strength_rises_with_detail 3 8 ltac:(lia) ltac:(lia) ltac:(lia))
    as (_ & Hle & _ & Hb).
  split; [exact Hle|]. exact (proj1 (proj2 (Hb ltac:(lia)))).
Defined.

(** ** [add_halftone_shading] *)

Lemma halftone_shape (B : Backend) (gray : Mat Z) (strength : num) out :
  add_halftone_shading gray strength = inr out -> shape out = shape gray.
Proof.
  unfold add_halftone_shading. destruct (Py.le strength (Int 0)).
  - intros H. injection H as <-. reflexivity.
  - intros H. bind_inv H. bind_inv H. bind_inv H. bind_inv H.
    injection H as <-.
    apply GaussianBlur_shape in Ha2. apply (@resize_shape B CV_8U) in Ha1.
    unfold shape in *. cbn [rows cols mmap].
    rewrite !Nat2Z.id in Ha1. rewrite Ha2. exact Ha1.
Qed.

(** X5.  Whenever [add_halftone_shading] returns, for any strength, its
    result has the shape of the gray image and every sample is 0 or 255, as
    its docstring says. *)
Theorem halftone_mask_is_binary (B : Backend) (gray : Mat Z) (strength : num) out :
  add_halftone_shading gray strength = inr out ->
  shape out = shape gray
  /\ Forall (fun v => v = 0 \/ v = 255) (data out).
Proof.
  intros H. split; [now apply halftone_shape in H|].
  revert H. unfold add_halftone_shading. destruct (Py.le strength (Int 0)).
  - intros H. injection H as <-.
    apply Forall_forall. intros x Hx. apply repeat_spec in Hx. now left.
  - intros H. bind_inv H. bind_inv H. bind_inv H. bind_inv H.
    injection H as <-.
    cbn [data mmap]. apply Forall_forall. intros x Hx.
    apply in_map_iff in Hx. destruct Hx as (v & <- & _).
    destruct (80 <? v); [right | left]; reflexivity.
Qed.

Lemma halftone_mask_is_binary_witness :
  exists out,
    add_halftone_shading (B := Plain.backend) (full 12 12 40) (shade_strength (Int 4))
    = inr out
    /\ shape out = (12%nat, 12%nat)
    /\ Forall (fun v => v = 0 \/ v = 255) (data out).
Proof.
  eexists. split; [vm_compute; reflexivity|].
  match goal with
  | |- shape ?o = _ /\ _ =>
      assert (E : add_halftone_shading (B := Plain.backend) (full 12 12 40)
                    (shade_strength (Int 4)) = inr o)
        by (vm_compute; reflexivity)
  end.
  exact (@halftone_mask_is_binary Plain.backend _ _ _ E).
Defined.

(** ** Sizes accepted and produced by [high_quality_stencil] *)

(** X6.  An image with no rows or no columns makes the pipeline raise, for
    every lineWeight and detail. *)
Theorem zero_area_image_raises (B : Backend) (bgr : Mat bgr_px) (lw d : Z) :
  rows bgr = 0%nat \/ cols bgr = 0%nat ->
  fails (high_quality_stencil bgr lw d).
Proof.
  intros H. apply zero_area_fails. unfold is_empty.
  apply orb_true_iff. destruct H as [H | H]; [left | right]; now apply Nat.eqb_eq.
Qed.

Lemma zero_area_image_raises_witness :
  rows (mkMat 0 5 (@nil bgr_px)) = 0%nat
  /\ fails (high_quality_stencil (B := Plain.backend) (mkMat 0 5 []) 3 4).
Proof.
  split; [reflexivity|].
  apply (@zero_area_image_raises Plain.backend (mkMat 0 5 []) 3 4). now left.
Defined.

(** X7.  When neither side of the image exceeds 1400 nothing is resized: an
    image returned by the pipeline has exactly the rows and columns of the
    input. *)
Theorem small_image_keeps_its_shape (B : Backend) (bgr : Mat bgr_px) (lw d : Z) out :
  (rows bgr <= 1400)%nat -> (cols bgr <= 1400)%nat ->
  high_quality_stencil bgr lw d = inr out ->
  normalize_size bgr = ret bgr /\ shape out = shape bgr.
Proof.
  intros Hr Hc H. pose proof (normalize_size_small B bgr Hr Hc) as Hn.
  split; [exact Hn|].
  apply hqs_inr in H. destruct H as (nbgr & lines & shade & Hn' & Hcomp).
  rewrite Hn in Hn'. injection Hn' as <-.
  apply compositor_spec in Hcomp. destruct Hcomp as (ink & _ & Hs & _). exact Hs.
Qed.

Lemma small_image_keeps_its_shape_witness :
  (rows Plain.square12 <= 1400)%nat /\ (cols Plain.square12 <= 1400)%nat
  /\ exists out,
       high_quality_stencil (B := Plain.backend) Plain.square12 3 4 = inr out
       /\ shape out = (12%nat, 12%nat).
Proof.
  split; [simpl; lia|]. split; [simpl; lia|].
  eexists. split; [vm_compute; reflexivity|].
  match goal with
  | |- shape ?o = _ =>
      assert (E : high_quality_stencil (B := Plain.backend) Plain.square12 3 4 = inr o)
        by (vm_compute; reflexivity)
  end.
  refine (proj2 (@small_image_keeps_its_shape Plain.backend Plain.square12 3 4 _ _ _ E));
    simpl; lia.
Defined.

Lemma sides_checked_ok :
  forallb (fun m => long_side_ok m && unit_side_vanishes m) sides_checked = true.
Proof. vm_compute. reflexivity. Qed.

Lemma in_zseq n : forall start m,
  start <= m < start + Z.of_nat n -> In m (zseq start n).
Proof.
  induction n as [|n IH]; intros start m Hm; [lia|]. cbn [zseq].
  destruct (Z.eq_dec start m) as [E | NE]; [now left | right].
  apply IH. lia.
Qed.

Lemma side_in_range m :
  1400 < m <= 100000 -> long_side_ok m = true /\ unit_side_vanishes m = true.
Proof.
  intros Hm. apply andb_true_iff.
  pose proof sides_checked_ok as H. rewrite forallb_forall in H. apply H.
  unfold sides_checked. apply in_zseq. lia.
Qed.

Lemma py_max_int h w : Py.max (Int h) (Int w) = Int (Z.max h w).
Proof.
  unfold Py.max, Py.gt, Py.lt. destruct (h <? w) eqn:E.
  - apply Z.ltb_lt in E. f_equal. lia.
  - apply Z.ltb_ge in E. f_equal. lia.
Qed.

(** The size normalisation of an image whose longer side [m] is above 1400
    and has been checked. *)
Lemma normalize_size_large (B : Backend) (bgr : Mat bgr_px) :
  let h := Z.of_nat (rows bgr) in
  let w := Z.of_nat (cols bgr) in
  let scale := Py.truediv (Int 1400) (Int (Z.max h w)) in
  1400 < Z.max h w <= 100000 ->
  normalize_size bgr =
  (w' <- Py.int (Py.mul (Int w) scale) ;;
   h' <- Py.int (Py.mul (Int h) scale) ;;
   resize CV_8UC3 bgr (w', h') INTER_AREA).
Proof.
  intros h w scale Hm. unfold normalize_size. fold h w.
  rewrite py_max_int.
  assert (Hgt : Py.gt (Int (Z.max h w)) (Int 1400) = true).
  { unfold Py.gt, Py.lt. apply Z.ltb_lt. lia. }
  rewrite Hgt. fold scale.
  destruct (side_in_range Hm) as [Hok _]. unfold long_side_ok in Hok.
  apply andb_true_iff in Hok. destruct Hok as [Hne _].
  fold scale in Hne. rewrite Hne. reflexivity.
Qed.

Lemma scaled_long_side m :
  1400 < m <= 100000 ->
  exists v, Py.int (Py.mul (Int m) (Py.truediv (Int 1400) (Int m))) = ret v
            /\ (v = 1399 \/ v = 1400).
Proof.
  intros Hm. destruct (side_in_range Hm) as [Hok _]. unfold long_side_ok in Hok.
  apply andb_true_iff in Hok. destruct Hok as [_ Hv].
  destruct (Py.int _) as [e|v]; [discriminate|]. exists v. split; [reflexivity|].
  apply orb_true_iff in Hv. destruct Hv as [Hv | Hv]; apply Z.eqb_eq in Hv; auto.
Qed.

(** X8.  For an image whose longer side is between 1401 and 100000, the
    normalised image, when [resize] returns it, has that side scaled to 1399
    or to 1400: binary64 rounding of [side * (1400 / side)] followed by
    [int()] loses at most one pixel. *)
Theorem normalized_long_side (B : Backend) (bgr nbgr : Mat bgr_px) :
  1400 < Z.max (Z.of_nat (rows bgr)) (Z.of_nat (cols bgr)) <= 100000 ->
  normalize_size bgr = inr nbgr ->
  ((cols bgr <= rows bgr)%nat -> rows nbgr = 1399%nat \/ rows nbgr = 1400%nat)
  /\ ((rows bgr <= cols bgr)%nat -> cols nbgr = 1399%nat \/ cols nbgr = 1400%nat).
Proof.
  intros Hm Hn. rewrite (normalize_size_large B bgr Hm) in Hn.
  bind_inv Hn. bind_inv Hn. apply (@resize_shape B CV_8UC3) in Hn.
  injection Hn as Hrows Hcols.
  split; intros Hle.
  - replace (Z.max (Z.of_nat (rows bgr)) (Z.of_nat (cols bgr)))
      with (Z.of_nat (rows bgr)) in * by lia.
    destruct (scaled_long_side Hm) as (v & Hv & Hcase).
    rewrite Hv in Ha0. injection Ha0 as <-.
    rewrite Hrows. destruct Hcase as [-> | ->]; [left | right]; reflexivity.
  - replace (Z.max (Z.of_nat (rows bgr)) (Z.of_nat (cols bgr)))
      with (Z.of_nat (cols bgr)) in * by lia.
    destruct (scaled_long_side Hm) as (v & Hv & Hcase).
    rewrite Hv in Ha. injection Ha as <-.
    rewrite Hcols. destruct Hcase as [-> | ->]; [left | right]; reflexivity.
Qed.

Lemma normalized_long_side_witness :
  1400 < Z.max (Z.of_nat (rows (full 2800 2 (0, 0, 0))))
               (Z.of_nat (cols (full 2800 2 (0, 0, 0)))) <= 100000
  /\ exists nbgr,
       normalize_size (B := Plain.backend) (full 2800 2 (0, 0, 0)) = inr nbgr
       /\ (rows nbgr = 1399%nat \/ rows nbgr = 1400%nat).
Proof.
  split; [simpl; lia|].
  eexists. split; [vm_compute; reflexivity|].
  refine (proj1 (@normalized_long_side Plain.backend (full 2800 2 (0, 0, 0)) _ _ _) _).
  - simpl; lia.
  - vm_compute. reflexivity.
  - simpl; lia.
Defined.

(** X9.  An image one pixel wide or one pixel high whose other side is
    between 1401 and 100000 makes the pipeline raise for every lineWeight
    and detail: the one-pixel side is scaled to int(1400 / side) = 0 and
    [resize] is asked for an empty target. *)
Theorem one_pixel_strip_raises (B : Backend) (bgr : Mat bgr_px) (lw d : Z) :
  (cols bgr = 1%nat /\ 1400 < Z.of_nat (rows bgr) <= 100000)
  \/ (rows bgr = 1%nat /\ 1400 < Z.of_nat (cols bgr) <= 100000) ->
  Py.int (Py.mul (Int 1)
            (Py.truediv (Int 1400)
               (Int (Z.max (Z.of_nat (rows bgr)) (Z.of_nat (cols bgr)))))) = ret 0
  /\ fails (normalize_size bgr)
  /\ fails (high_quality_stencil bgr lw d).
Proof.
  intros Hstrip.
  set (m := Z.max (Z.of_nat (rows bgr)) (Z.of_nat (cols bgr))).
  assert (Hm : 1400 < m <= 100000) by (unfold m; lia).
  assert (H0 : Py.int (Py.mul (Int 1) (Py.truediv (Int 1400) (Int m))) = ret 0).
  { destruct (side_in_range Hm) as [_ Hu]. unfold unit_side_vanishes in Hu.
    destruct (Py.int _) as [e|v]; [discriminate|]. apply Z.eqb_eq in Hu. now subst. }
  assert (Hn : fails (normalize_size bgr)).
  { rewrite (normalize_size_large B bgr Hm). fold m.
    destruct Hstrip as [[Hc Hr] | [Hr Hc]].
    - rewrite Hc. change (Z.of_nat 1) with 1. rewrite H0. cbn [bind ret].
      apply fails_bind. intros h' _. apply resize_dsize_empty. left. lia.
    - rewrite Hr. change (Z.of_nat 1) with 1. rewrite H0.
      apply fails_bind. intros w' _. cbn [bind ret].
      apply resize_dsize_empty. right. lia. }
  split; [exact H0|]. split; [exact Hn|].
  rewrite hqs_unfold. now apply fails_bind_l.
Qed.

Lemma one_pixel_strip_raises_witness :
  (cols (full 1500 1 (0, 0, 0)) = 1%nat
   /\ 1400 < Z.of_nat (rows (full 1500 1 (0, 0, 0))) <= 100000)
  /\ fails (high_quality_stencil (B := Plain.backend) (full 1500 1 (0, 0, 0)) 3 1).
Proof.
  split; [split; [reflexivity | simpl; lia]|].
  apply (@one_pixel_strip_raises Plain.backend (full 1500 1 (0, 0, 0)) 3 1).
  left. split; [reflexivity | simpl; lia].
Defined.

(** ** Shapes through the pipeline *)

Lemma bitwise_or_inr a b r :
  bitwise_or a b = inr r ->
  shape a = shape b /\ shape r = shape a
  /\ data r = map (fun xy => Z.lor (fst xy) (snd xy)) (combine (data a) (data b)).
Proof.
  unfold bitwise_or, same_shape. destruct (_ && _)%bool eqn:E; [|discriminate].
  intros H. injection H as <-. apply andb_true_iff in E. destruct E as [Er Ec].
  apply Nat.eqb_eq in Er. apply Nat.eqb_eq in Ec.
  split; [unfold shape; congruence|]. split; reflexivity.
Qed.

Lemma bitwise_or_same_shape a b :
  shape a = shape b -> exists r, bitwise_or a b = inr r.
Proof.
  intros H. injection H as Hr Hc. unfold bitwise_or, same_shape.
  rewrite Hr, Hc, !Nat.eqb_refl. eexists. reflexivity.
Qed.

Lemma line_extractor_shape (B : Backend) sharp detail combo :
  line_extractor sharp detail = inr combo -> shape combo = shape sharp.
Proof.
  unfold line_extractor. intros H.
  bind_inv H. bind_inv H. bind_inv H. bind_inv H.
  apply bitwise_or_inr in H. destruct H as (_ & Hs & _).
  apply Canny_shape in Ha0. congruence.
Qed.

Lemma morphological_cleaner_shape (B : Backend) combo combo' :
  morphological_cleaner combo = inr combo' -> shape combo' = shape combo.
Proof.
  unfold morphological_cleaner. intros H. bind_inv H.
  apply morphologyEx_shape in H. apply morphologyEx_shape in Ha. congruence.
Qed.

Lemma thin_loop_shape (B : Backend) fuel : forall m,
  rows (thin_loop fuel m) = rows m /\ cols (thin_loop fuel m) = cols m.
Proof.
  induction fuel as [|n IH]; intros m; simpl; [now split|].
  destruct (mat_eqb (thin_iteration m) m); [now split|].
  destruct (IH (thin_iteration m)) as [Hr Hc].
  destruct (thin_iteration_sub B m) as (_ & Hr' & Hc').
  split; congruence.
Qed.

Lemma skeletonizer_shape (B : Backend) combo :
  shape (skeletonizer combo) = shape combo.
Proof.
  unfold skeletonizer, skeletonize, shape. cbn [rows cols mmap].
  destruct (thin_loop_shape B
              (count_true (data (mmap (fun v => negb (v =? 0)) (gt_mask 0 combo))))
              (mmap (fun v => negb (v =? 0)) (gt_mask 0 combo))) as [Hr Hc].
  rewrite Hr, Hc. reflexivity.
Qed.

Lemma line_renderer_shape sk k lines :
  line_renderer sk (Int k) = inr lines -> shape lines = shape sk.
Proof.
  rewrite line_renderer_returns. intros H. injection H as <-. reflexivity.
Qed.

(** X10.  The ink-candidate stage returns whenever its two OpenCV calls do:
    it hands [Canny] the thresholds 40 + (8-d)*6 and 120 + (8-d)*8 and
    [adaptiveThreshold] the window, and its own OR cannot raise.  The mask
    has the shape of the gray image and each sample is the edge sample ORed
    with the inverted threshold sample. *)
Theorem line_extractor_returns (B : Backend) (sharp edges th : Mat Z) (d : Z) :
  Canny sharp (40 + (8 - d) * 6) (120 + (8 - d) * 8) = inr edges ->
  adaptiveThreshold sharp (Int 255) ADAPTIVE_THRESH_GAUSSIAN_C THRESH_BINARY
    (Z.max 15 (Z.min 31 (31 - 2 * d))) (Int 2) = inr th ->
  exists combo,
    line_extractor sharp (Int d) = inr combo
    /\ shape combo = shape sharp
    /\ forall i v, nth_error (data combo) i = Some v ->
         exists e t, nth_error (data edges) i = Some e
                     /\ nth_error (data th) i = Some t
                     /\ v = Z.lor e (u8 (255 - t)).
Proof.
  intros Hc Ht.
  assert (Hs : shape edges = shape (mmap (fun v => u8 (255 - v)) th)).
  { apply Canny_shape in Hc. apply adaptiveThreshold_shape in Ht.
    unfold shape in *. cbn [rows cols mmap]. congruence. }
  destruct (bitwise_or_same_shape Hs) as [combo Hor].
  assert (Hl : line_extractor sharp (Int d) = inr combo).
  { unfold line_extractor.
    replace (canny_thresholds (Int d))
      with (@ret (Z * Z) (40 + (8 - d) * 6, 120 + (8 - d) * 8)) by reflexivity.
    cbn [bind ret fst snd]. rewrite Hc. cbn [bind].
    rewrite (proj2 (proj2 (adaptive_block_value d))). cbn [bind ret].
    rewrite Ht. cbn [bind]. exact Hor. }
  exists combo. split; [exact Hl|]. split; [now apply line_extractor_shape in Hl|].
  intros i v Hv. apply bitwise_or_inr in Hor. destruct Hor as (_ & _ & Hd).
  rewrite Hd in Hv. apply nth_error_map_inv in Hv.
  destruct Hv as ([e t'] & Het & <-). apply nth_error_combine in Het.
  destruct Het as [He Ht']. cbn [data mmap] in Ht'.
  apply nth_error_map_inv in Ht'. destruct Ht' as (t & Ht' & <-).
  exists e, t. repeat split; assumption.
Qed.

Lemma line_extractor_returns_witness :
  exists combo,
    line_extractor (B := Plain.backend) (full 2 2 100) (Int 4) = inr combo
    /\ shape combo = (2%nat, 2%nat).
Proof.
  destruct (@line_extractor_returns Plain.backend (full 2 2 100)
              (mmap (fun _ => 0) (full 2 2 100))
              (mmap (fun v => if 127 <? v then 255 else 0) (full 2 2 100)) 4
              eq_refl eq_refl) as (combo & Hl & Hs & _).
  exists combo. split; assumption.
Defined.

(** X11.  Shapes cannot disagree inside the pipeline: once the size
    normalisation, the enhancement, the ink-candidate stage, the cleaner and
    the shading have returned, [high_quality_stencil] returns, with an image
    of the shape of the normalised one.  The OR of the two masks and the
    masked assignment of the compositor never raise. *)
Theorem masks_always_fit (B : Backend) (bgr nbgr : Mat bgr_px) (lw d : Z)
    (sharp combo combo' shade : Mat Z) :
  normalize_size bgr = inr nbgr ->
  enhance nbgr = inr sharp ->
  line_extractor sharp (Int (clamp18 d)) = inr combo ->
  morphological_cleaner combo = inr combo' ->
  add_halftone_shading sharp (shade_strength (Int (clamp18 d))) = inr shade ->
  exists out,
    high_quality_stencil bgr lw d = inr out /\ shape out = shape nbgr.
Proof.
  intros Hn He Hl Hm Hsh.
  rewrite hqs_unfold, Hn. cbn [bind]. rewrite He. cbn [bind].
  rewrite Hl. cbn [bind]. rewrite Hm. cbn [bind].
  rewrite line_renderer_returns. cbn [bind ret]. rewrite Hsh. cbn [bind].
  set (lines := dilate _ _ _).
  assert (Hlines : shape lines = shape nbgr).
  { assert (H1 : shape lines = shape (skeletonizer combo')) by reflexivity.
    rewrite H1, skeletonizer_shape.
    apply morphological_cleaner_shape in Hm. apply line_extractor_shape in Hl.
    apply enhance_shape in He. congruence. }
  assert (Hshade : shape shade = shape nbgr).
  { apply halftone_shape in Hsh. apply enhance_shape in He. congruence. }
  destruct (@bitwise_or_same_shape lines shade ltac:(congruence)) as [ink Hor].
  apply bitwise_or_inr in Hor as Hink. destruct Hink as (_ & Hinks & _).
  unfold compositor. rewrite Hor. cbn [bind].
  assert (Hss : same_shape (gt_mask 0 ink) (full (rows nbgr) (cols nbgr) white) = true).
  { unfold same_shape. cbn [rows cols gt_mask mmap full].
    rewrite <- Hinks in Hlines. injection Hlines as -> ->. now rewrite !Nat.eqb_refl. }
  rewrite Hss. eexists. split; reflexivity.
Qed.

Lemma masks_always_fit_witness :
  exists out,
    high_quality_stencil (B := Plain.backend) Plain.square12 3 4 = inr out
    /\ shape out = (12%nat, 12%nat).
Proof.
  eapply (@masks_always_fit Plain.backend Plain.square12 Plain.square12 3 4).
  - vm_compute. reflexivity.
  - vm_compute. reflexivity.
  - vm_compute. reflexivity.
  - vm_compute. reflexivity.
  - vm_compute. reflexivity.
Defined.

(** X12.  With a detail of at most 2 the image is decided by the line
    mask alone.  The Shader returns the all-zero mask, and the pixels of a
    returned image are, in order, the samples of the mask the pipeline's own
    Line Renderer returned for its cleaned, skeletonised ink candidates:
    InkColor where that mask is positive and white elsewhere. *)
Theorem low_detail_output_is_the_line_mask (B : Backend) (bgr : Mat bgr_px)
    (lw d : Z) out :
  d <= 2 ->
  high_quality_stencil bgr lw d = inr out ->
  exists nbgr sharp combo combo' lines,
    normalize_size bgr = inr nbgr
    /\ enhance nbgr = inr sharp
    /\ line_extractor sharp (Int (clamp18 d)) = inr combo
    /\ morphological_cleaner combo = inr combo'
    /\ line_renderer (skeletonizer combo') (Int (clamp18 lw)) = inr lines
    /\ add_halftone_shading sharp (shade_strength (Int (clamp18 d)))
       = inr (zeros_like sharp)
    /\ map bgr_to_rgb (data out)
       = map (fun v => if 0 <? v then PURPLE else (255, 255, 255))
             (firstn (rows nbgr * cols nbgr) (data lines))
    /\ (forall i p, nth_error (data out) i = Some p ->
          exists v, nth_error (data lines) i = Some v
                    /\ bgr_to_rgb p = if 0 <? v then PURPLE else (255, 255, 255))
    /\ (forall i v, (i < rows nbgr * cols nbgr)%nat ->
          nth_error (data lines) i = Some v ->
          exists p, nth_error (data out) i = Some p
                    /\ bgr_to_rgb p = if 0 <? v then PURPLE else (255, 255, 255)).
Proof.
  intros Hd H. apply hqs_stages in H.
  destruct H as (nbgr & sharp & combo & combo' & lines & shade
                 & Hn & He & Hl & Hm & Hr & Hsh & Hc).
  assert (Hcase : clamp18 d = 1 \/ clamp18 d = 2) by (unfold clamp18; lia).
  assert (Hz : shade = zeros_like sharp).
  { rewrite (shade_strength_low Hcase) in Hsh. cbv in Hsh. now injection Hsh. }
  subst shade.
  exists nbgr, sharp, combo, combo', lines.
  do 6 (split; [assumption|]).
  apply compositor_exact in Hc. destruct Hc as (ink & Hor & _ & Hdata).
  apply bitwise_or_inr in Hor. destruct Hor as (_ & _ & Hink).
  assert (Hshape : (rows sharp * cols sharp = rows nbgr * cols nbgr)%nat).
  { apply enhance_shape in He. injection He as -> ->. reflexivity. }
  assert (Hfirst : firstn (rows nbgr * cols nbgr) (data ink)
                   = firstn (rows nbgr * cols nbgr) (data lines)).
  { rewrite Hink. unfold zeros_like, full. cbn [data].
    rewrite map_combine_repeat_r, Hshape. cbn [fst snd].
    rewrite (map_ext _ (fun x => x)) by (intros x; apply Z.lor_0_r).
    rewrite map_id, firstn_firstn, Nat.min_id. reflexivity. }
  assert (Hmap : map bgr_to_rgb (data out)
                 = map (fun v => if 0 <? v then PURPLE else (255, 255, 255))
                       (firstn (rows nbgr * cols nbgr) (data lines))).
  { rewrite Hdata, Hfirst, map_map. apply map_ext. intros v.
    destruct (0 <? v); reflexivity. }
  split; [exact Hmap|].
  split.
  - intros i p Hp.
    assert (Hq : nth_error (map bgr_to_rgb (data out)) i = Some (bgr_to_rgb p))
      by (rewrite nth_error_map, Hp; reflexivity).
    rewrite Hmap in Hq. apply nth_error_map_inv in Hq. destruct Hq as (v & Hv & Hq).
    rewrite nth_error_firstn in Hv.
    destruct (Nat.ltb_spec i (rows nbgr * cols nbgr)); [|discriminate].
    exists v. split; [exact Hv | now symmetry].
  - intros i v Hi Hv.
    assert (Hq : nth_error (map bgr_to_rgb (data out)) i
                 = Some (if 0 <? v then PURPLE else (255, 255, 255))).
    { rewrite Hmap, nth_error_map, nth_error_firstn.
      destruct (Nat.ltb_spec i (rows nbgr * cols nbgr)); [|lia].
      rewrite Hv. reflexivity. }
    apply nth_error_map_inv in Hq. destruct Hq as (p & Hp & Hq).
    exists p. split; assumption.
Qed.

Lemma low_detail_output_is_the_line_mask_witness :
  2 <= 2
  /\ exists out lines,
       high_quality_stencil (B := Plain.backend) Plain.square12 3 2 = inr out
       /\ map bgr_to_rgb (data out)
          = map (fun v => if 0 <? v then PURPLE else (255, 255, 255))
                (firstn 144 (data lines)).
Proof.
  split; [lia|].
  assert (E : exists out,
             high_quality_stencil (B := Plain.backend) Plain.square12 3 2 = inr out)
    by (eexists; vm_compute; reflexivity).
  destruct E as [out E].
  destruct (@low_detail_output_is_the_line_mask Plain.backend Plain.square12 3 2 out
              ltac:(lia) E)
    as (nbgr & sharp & combo & combo' & lines & Hn & _ & _ & _ & _ & _ & Hmap & _).
  exists out, lines. split; [exact E|].
  assert (Hnb : nbgr = Plain.square12) by (vm_compute in Hn; now injection Hn).
  subst nbgr. exact Hmap.
Defined.

(** ** The request handlers *)

(** X13.  The [/stencil] handler of [backend/main.py] never produces a
    response body.  It calls [high_quality_stencil(bgr, lineWeight=...,
    detail=...)] while the parameter is named [line_weight]: for every
    upload that decodes to a non-empty image and every pair of parameters
    the call ends in a [TypeError] for the keyword [lineWeight], before the
    pipeline runs; an empty image is rejected earlier, by the [cvtColor] of
    [pil_to_bgr].  Spelled [line_weight], the same call binds and runs the
    pipeline. *)
Theorem stencil_handler_always_raises (B : Backend) (bytes : Type)
    (Image_open_RGB : bytes -> option (Mat (Z * Z * Z)))
    (png_save : Mat (Z * Z * Z) -> bytes) (file : bytes) (lineWeight detail : Z) :
  (forall body, stencil Image_open_RGB png_save file lineWeight detail <> inr body)
  /\ (forall pil, Image_open_RGB file = Some pil -> is_empty pil = false ->
        stencil Image_open_RGB png_save file lineWeight detail
        = inl (TypeError (unexpected_keyword "lineWeight")))
  /\ (forall pil, Image_open_RGB file = Some pil -> is_empty pil = true ->
        stencil Image_open_RGB png_save file lineWeight detail
        = inl (PipelineError (cv2_error fn_cvtColor)))
  /\ (Image_open_RGB file = None ->
        stencil Image_open_RGB png_save file lineWeight detail = inl DecodeError)
  /\ (forall bgr,
        call_high_quality_stencil [VArr bgr]
          [("line_weight"%string, VInt lineWeight); ("detail"%string, VInt detail)]
        = of_core (high_quality_stencil bgr lineWeight detail)).
Proof.
  assert (Hcall : forall bgr,
            call_high_quality_stencil [VArr bgr]
              [("lineWeight"%string, VInt lineWeight); ("detail"%string, VInt detail)]
            = inl (TypeError (unexpected_keyword "lineWeight"))) by reflexivity.
  split; [|split; [|split; [|split]]].
  - intros body. unfold stencil, pil_to_bgr.
    destruct (Image_open_RGB file) as [pil|]; [|discriminate].
    destruct (is_empty pil); [discriminate|].
    cbn [ret]. rewrite Hcall. discriminate.
  - intros pil Hpil Hne. unfold stencil, pil_to_bgr. rewrite Hpil, Hne.
    cbn [ret]. rewrite Hcall. reflexivity.
  - intros pil Hpil He. unfold stencil, pil_to_bgr. rewrite Hpil, He. reflexivity.
  - intros Hnone. unfold stencil. rewrite Hnone. reflexivity.
  - intros bgr. reflexivity.
Qed.



(** ** The ink-candidate count and detail *)






